(** * shinychat: the chat widget of js/src/chat/chat.ts

    A shallow embedding of the custom elements [ChatMessage], [ChatInput] and
    [ChatContainer] and of the platform objects they drive (speech
    recognition, media recorder, file reader), followed by the properties of
    the turn-taking and transcript-assembly engine.

    The source file holds two revisions of chat.ts: the first adds the audio
    capture to [ChatInput], the second adds the message actions to
    [ChatMessage] and [ChatContainer].  All other code is the same in both, so
    the embedding is their union.

    The DOM is single threaded: every handler runs to completion, so a
    handler is a function of the widget state.  A handler that throws keeps
    the mutations made before the throw. *)

From Stdlib Require Import ZArith Ascii String.
From Stdlib.Strings Require Import Byte.
From stdpp Require Import base option list strings gmap.

Local Open Scope string_scope.
Local Open Scope list_scope.
Local Open Scope Z_scope.

(** ** JavaScript strings

    A string is a sequence of code units below 256.  [isWhiteSpace] is the
    WhiteSpace and LineTerminator set of ECMAScript in that range (TAB, LF,
    VT, FF, CR, SP, NBSP), which is what [String.prototype.trim] strips. *)

Definition isWhiteSpace (c : ascii) : bool :=
  let n := nat_of_ascii c in
  (n =? 9)%nat || (n =? 10)%nat || (n =? 11)%nat || (n =? 12)%nat
  || (n =? 13)%nat || (n =? 32)%nat || (n =? 160)%nat.

Fixpoint dropWhiteSpace (l : list ascii) : list ascii :=
  match l with
  | c :: l' => if isWhiteSpace c then dropWhiteSpace l' else l
  | [] => []
  end.

Definition trimStart (s : string) : string :=
  string_of_list_ascii (dropWhiteSpace (list_ascii_of_string s)).

Definition trimEnd (s : string) : string :=
  string_of_list_ascii (rev (dropWhiteSpace (rev (list_ascii_of_string s)))).

Definition trim (s : string) : string := trimEnd (trimStart s).

(** Truthiness of a string: only the empty string is falsy. *)
Definition truthy (s : string) : bool := negb (String.eqb s "").

(** [a || b] on strings. *)
Definition or_else (a b : string) : string := if truthy a then a else b.

(** [s.replace(/_/g, "-")] *)
Fixpoint replace_underscores (s : string) : string :=
  match s with
  | String c s' =>
      String (if Ascii.eqb c "_"%char then "-"%char else c) (replace_underscores s')
  | EmptyString => EmptyString
  end.

(** [s.replace(/suffix$/, "")] for a literal suffix. *)
Definition strip_suffix (suffix s : string) : string :=
  let n := (String.length s - String.length suffix)%nat in
  if (String.length suffix <=? String.length s)%nat
     && String.eqb (substring n (String.length suffix) s) suffix
  then substring 0 n s else s.

(** ** Messages (chat.ts, types [MessageAttrs] and [Message]) *)

Inductive Role := user | assistant.
Inductive ChunkType := message_start | message_end.
Inductive ContentType := markdown | html | text | semi_markdown.
Inductive Operation := op_append.

Definition Role_str (r : Role) : string :=
  match r with user => "user" | assistant => "assistant" end.
Definition ChunkType_str (c : ChunkType) : string :=
  match c with message_start => "message_start" | message_end => "message_end" end.
Definition ContentType_str (c : ContentType) : string :=
  match c with
  | markdown => "markdown" | html => "html" | text => "text"
  | semi_markdown => "semi-markdown"
  end.
Definition Operation_str (o : Operation) : string :=
  match o with op_append => "append" end.

(** The object carried by the inbound events.  [chunk_type] and [operation]
    are [null] when [None]; [icon] is an optional key; [content_type] is
    [None] only in the detail that [sendInput] builds, which has the keys
    [content] and [role] alone. *)
Record Message := {
  content : string;
  role : Role;
  chunk_type : option ChunkType;
  content_type : option ContentType;
  icon : option string;
  operation : option Operation
}.

(** A plain object with string or [null] values, keys in insertion order. *)
Definition JsObject := list (string * option string).

Fixpoint obj_set (key : string) (v : option string) (o : JsObject) : JsObject :=
  match o with
  | (k, x) :: o' => if String.eqb k key then (k, v) :: o' else (k, x) :: obj_set key v o'
  | [] => [(key, v)]
  end.

(** [const { role, ...restMessage } = message] *)
Definition restMessage_of (message : Message) : JsObject :=
  [("content", Some (content message));
   ("chunk_type", ChunkType_str <$> chunk_type message)]
  ++ match content_type message with
     | Some c => [("content_type", Some (ContentType_str c))]
     | None => []
     end
  ++ match icon message with Some i => [("icon", Some i)] | None => [] end
  ++ [("operation", Operation_str <$> operation message)].

(** ** The message element (class [ChatMessage]) *)

Inductive Feedback := positive | negative.

(** The reactive properties of a message are bound to attributes
    ([content], [content-type], [streaming], [icon], [data-role],
    [message-actions]) and the container only ever writes the attributes, so
    the attributes are the state and the properties are read from them.  The
    three [@state] fields are the element's local view state. *)
Record ChatMessage := {
  tagName : string;
  attributes : gmap string string;
  _copySuccess : bool;
  _feedbackGiven : option Feedback;
  _showMoreMenu : bool
}.

Definition set_attributes (v : gmap string string) (x : ChatMessage) : ChatMessage :=
  {| tagName := tagName x; attributes := v; _copySuccess := _copySuccess x;
     _feedbackGiven := _feedbackGiven x; _showMoreMenu := _showMoreMenu x |}.
Definition set__feedbackGiven (v : option Feedback) (x : ChatMessage) : ChatMessage :=
  {| tagName := tagName x; attributes := attributes x; _copySuccess := _copySuccess x;
     _feedbackGiven := v; _showMoreMenu := _showMoreMenu x |}.

Definition getAttribute (name : string) (el : ChatMessage) : option string :=
  attributes el !! name.
Definition setAttribute (name value : string) (el : ChatMessage) : ChatMessage :=
  set_attributes (<[name := value]> (attributes el)) el.
Definition removeAttribute (name : string) (el : ChatMessage) : ChatMessage :=
  set_attributes (delete name (attributes el)) el.

(** Property getters, with the defaults of the class body. *)
Definition el_content (el : ChatMessage) : string :=
  default "..." (getAttribute "content" el).
Definition el_contentType (el : ChatMessage) : string :=
  default "markdown" (getAttribute "content-type" el).
Definition el_streaming (el : ChatMessage) : bool :=
  bool_decide (is_Some (getAttribute "streaming" el)).
Definition el_icon (el : ChatMessage) : string :=
  default "" (getAttribute "icon" el).
Definition el_role (el : ChatMessage) : string :=
  default "assistant" (getAttribute "data-role" el).
Definition el_messageActions (el : ChatMessage) : string :=
  default "" (getAttribute "message-actions" el).

Definition CHAT_MESSAGE_TAG : string := "shiny-chat-message".

(** Modelled from the spec: [createElement] is imported from ../utils/_utils,
    which is not among the sources.  Spec 4.1 has [append] insert the message
    it is given, and the source says what the helper does with its argument
    ("Message keys will create custom element attributes", "Remap role to
    data_role for the custom element attribute"): a new element of the tag is
    made and every entry whose value is not [null] becomes an attribute, the
    underscores of its key written as hyphens. *)
Definition createElement (tag_name : string) (attrs : JsObject) : ChatMessage :=
  fold_left
    (fun el '(key, value) =>
       match value with
       | Some v => setAttribute (replace_underscores key) v el
       | None => el
       end)
    attrs
    {| tagName := tag_name; attributes := ∅; _copySuccess := false;
       _feedbackGiven := None; _showMoreMenu := false |}.

(** ** Platform objects

    The recogniser, the recorder, the interval timers and the file readers
    belong to the browser.  They live in a store and the component holds
    references (indices) to them, because an object keeps its handlers, and
    can still call them, after the component has dropped its reference. *)

(** [Blob]: its bytes and its MIME type; [size] is the number of bytes. *)
Record Blob := { bytes : list byte; blob_type : string }.
Definition blob_size (b : Blob) : Z := Z.of_nat (length (bytes b)).

(** [new Blob(parts, { type })] *)
Definition Blob_of (parts : list Blob) (type : string) : Blob :=
  {| bytes := concat (bytes <$> parts); blob_type := type |}.

(** A handler slot holds a closure of the component or [null]; the closures
    of [onresult], [onerror], [onend] and [ondataavailable] are fixed, so the
    slot is a flag. *)
Record SpeechRecognition := {
  continuous : bool;
  interimResults : bool;
  lang : string;
  onresult : bool;
  onerror : bool;
  onend : bool;
  listening : bool
}.

Definition set_onend (v : bool) (x : SpeechRecognition) : SpeechRecognition :=
  {| continuous := continuous x; interimResults := interimResults x; lang := lang x;
     onresult := onresult x; onerror := onerror x; onend := v;
     listening := listening x |}.
Definition set_listening (v : bool) (x : SpeechRecognition) : SpeechRecognition :=
  {| continuous := continuous x; interimResults := interimResults x; lang := lang x;
     onresult := onresult x; onerror := onerror x; onend := onend x; listening := v |}.

(** The two closures assigned to [MediaRecorder.onstop]: the one of
    [startRecording] releases the tracks of the stream it was started on; the
    one of [stopRecording] also hands the audio over, and carries the
    duration computed when the stop was asked for (in milliseconds here; the
    source divides by 1000). *)
Inductive OnStop := ReleaseTracks | ReleaseAndSend (duration_ms : Z).

Record MediaRecorder := {
  mimeType : string;
  recording : bool;
  ondataavailable : bool;
  onstop : option OnStop;
  stream_live : bool
}.

Definition set_recording (v : bool) (x : MediaRecorder) : MediaRecorder :=
  {| mimeType := mimeType x; recording := v; ondataavailable := ondataavailable x;
     onstop := onstop x; stream_live := stream_live x |}.
Definition set_onstop (v : option OnStop) (x : MediaRecorder) : MediaRecorder :=
  {| mimeType := mimeType x; recording := recording x;
     ondataavailable := ondataavailable x; onstop := v; stream_live := stream_live x |}.
Definition set_stream_live (v : bool) (x : MediaRecorder) : MediaRecorder :=
  {| mimeType := mimeType x; recording := recording x;
     ondataavailable := ondataavailable x; onstop := onstop x; stream_live := v |}.

(** A [FileReader] started by [sendAudioData]; its [onloadend] closure holds
    the blob, the format and the duration. *)
Record FileReader := {
  reader_blob : Blob;
  reader_format : string;
  reader_duration_ms : Z;
  reader_done : bool
}.

Record Platform := {
  now : Z;                            (* Date.now() *)
  speech_available : bool;            (* window.SpeechRecognition || webkit... *)
  language : string;                  (* navigator.language *)
  supported_types : list string;      (* MediaRecorder.isTypeSupported *)
  recognitions : list SpeechRecognition;
  recorders : list MediaRecorder;
  timers : list bool;                 (* setInterval ids; true while not cleared *)
  readers : list FileReader;
  pending_user_media : nat            (* getUserMedia promises not yet settled *)
}.
Definition set_now (v : Z) (x : Platform) : Platform :=
  {| now := v; speech_available := speech_available x; language := language x;
     supported_types := supported_types x; recognitions := recognitions x;
     recorders := recorders x; timers := timers x; readers := readers x;
     pending_user_media := pending_user_media x |}.
Definition set_recognitions (v : list SpeechRecognition) (x : Platform) : Platform :=
  {| now := now x; speech_available := speech_available x; language := language x;
     supported_types := supported_types x; recognitions := v; recorders := recorders x;
     timers := timers x; readers := readers x;
     pending_user_media := pending_user_media x |}.
Definition set_recorders (v : list MediaRecorder) (x : Platform) : Platform :=
  {| now := now x; speech_available := speech_available x; language := language x;
     supported_types := supported_types x; recognitions := recognitions x;
     recorders := v; timers := timers x; readers := readers x;
     pending_user_media := pending_user_media x |}.
Definition set_timers (v : list bool) (x : Platform) : Platform :=
  {| now := now x; speech_available := speech_available x; language := language x;
     supported_types := supported_types x; recognitions := recognitions x;
     recorders := recorders x; timers := v; readers := readers x;
     pending_user_media := pending_user_media x |}.
Definition set_readers (v : list FileReader) (x : Platform) : Platform :=
  {| now := now x; speech_available := speech_available x; language := language x;
     supported_types := supported_types x; recognitions := recognitions x;
     recorders := recorders x; timers := timers x; readers := v;
     pending_user_media := pending_user_media x |}.
Definition set_pending_user_media (v : nat) (x : Platform) : Platform :=
  {| now := now x; speech_available := speech_available x; language := language x;
     supported_types := supported_types x; recognitions := recognitions x;
     recorders := recorders x; timers := timers x; readers := readers x;
     pending_user_media := v |}.


(** ** The input element (class [ChatInput]) *)

Record ChatInput := {
  input_id : string;                   (* this.id *)
  value : string;                      (* this.textarea.value *)
  placeholder : string;
  _disabled : bool;
  button_disabled : bool;              (* this.button.disabled *)
  focused : bool;                      (* the textarea holds the focus *)
  _isComposing : bool;
  audioInputMode : string;
  _isRecording : bool;
  _recordingDuration : Z;
  _mediaRecorder : option nat;
  _audioChunks : list Blob;
  _recordingStartTime : Z;
  _recordingTimer : option nat;
  _speechRecognition : option nat;
  _finalTranscript : string;
  _transcribedText : string
}.

Definition set_value (v : string) (x : ChatInput) : ChatInput :=
  {| input_id := input_id x; value := v; placeholder := placeholder x;
     _disabled := _disabled x; button_disabled := button_disabled x;
     focused := focused x; _isComposing := _isComposing x;
     audioInputMode := audioInputMode x; _isRecording := _isRecording x;
     _recordingDuration := _recordingDuration x; _mediaRecorder := _mediaRecorder x;
     _audioChunks := _audioChunks x; _recordingStartTime := _recordingStartTime x;
     _recordingTimer := _recordingTimer x; _speechRecognition := _speechRecognition x;
     _finalTranscript := _finalTranscript x; _transcribedText := _transcribedText x |}.
Definition set_placeholder (v : string) (x : ChatInput) : ChatInput :=
  {| input_id := input_id x; value := value x; placeholder := v;
     _disabled := _disabled x; button_disabled := button_disabled x;
     focused := focused x; _isComposing := _isComposing x;
     audioInputMode := audioInputMode x; _isRecording := _isRecording x;
     _recordingDuration := _recordingDuration x; _mediaRecorder := _mediaRecorder x;
     _audioChunks := _audioChunks x; _recordingStartTime := _recordingStartTime x;
     _recordingTimer := _recordingTimer x; _speechRecognition := _speechRecognition x;
     _finalTranscript := _finalTranscript x; _transcribedText := _transcribedText x |}.
Definition set__disabled (v : bool) (x : ChatInput) : ChatInput :=
  {| input_id := input_id x; value := value x; placeholder := placeholder x;
     _disabled := v; button_disabled := button_disabled x; focused := focused x;
     _isComposing := _isComposing x; audioInputMode := audioInputMode x;
     _isRecording := _isRecording x; _recordingDuration := _recordingDuration x;
     _mediaRecorder := _mediaRecorder x; _audioChunks := _audioChunks x;
     _recordingStartTime := _recordingStartTime x;
     _recordingTimer := _recordingTimer x; _speechRecognition := _speechRecognition x;
     _finalTranscript := _finalTranscript x; _transcribedText := _transcribedText x |}.
Definition set_button_disabled (v : bool) (x : ChatInput) : ChatInput :=
  {| input_id := input_id x; value := value x; placeholder := placeholder x;
     _disabled := _disabled x; button_disabled := v; focused := focused x;
     _isComposing := _isComposing x; audioInputMode := audioInputMode x;
     _isRecording := _isRecording x; _recordingDuration := _recordingDuration x;
     _mediaRecorder := _mediaRecorder x; _audioChunks := _audioChunks x;
     _recordingStartTime := _recordingStartTime x;
     _recordingTimer := _recordingTimer x; _speechRecognition := _speechRecognition x;
     _finalTranscript := _finalTranscript x; _transcribedText := _transcribedText x |}.
Definition set_focused (v : bool) (x : ChatInput) : ChatInput :=
  {| input_id := input_id x; value := value x; placeholder := placeholder x;
     _disabled := _disabled x; button_disabled := button_disabled x; focused := v;
     _isComposing := _isComposing x; audioInputMode := audioInputMode x;
     _isRecording := _isRecording x; _recordingDuration := _recordingDuration x;
     _mediaRecorder := _mediaRecorder x; _audioChunks := _audioChunks x;
     _recordingStartTime := _recordingStartTime x;
     _recordingTimer := _recordingTimer x; _speechRecognition := _speechRecognition x;
     _finalTranscript := _finalTranscript x; _transcribedText := _transcribedText x |}.
Definition set__isComposing (v : bool) (x : ChatInput) : ChatInput :=
  {| input_id := input_id x; value := value x; placeholder := placeholder x;
     _disabled := _disabled x; button_disabled := button_disabled x;
     focused := focused x; _isComposing := v; audioInputMode := audioInputMode x;
     _isRecording := _isRecording x; _recordingDuration := _recordingDuration x;
     _mediaRecorder := _mediaRecorder x; _audioChunks := _audioChunks x;
     _recordingStartTime := _recordingStartTime x;
     _recordingTimer := _recordingTimer x; _speechRecognition := _speechRecognition x;
     _finalTranscript := _finalTranscript x; _transcribedText := _transcribedText x |}.
Definition set__isRecording (v : bool) (x : ChatInput) : ChatInput :=
  {| input_id := input_id x; value := value x; placeholder := placeholder x;
     _disabled := _disabled x; button_disabled := button_disabled x;
     focused := focused x; _isComposing := _isComposing x;
     audioInputMode := audioInputMode x; _isRecording := v;
     _recordingDuration := _recordingDuration x; _mediaRecorder := _mediaRecorder x;
     _audioChunks := _audioChunks x; _recordingStartTime := _recordingStartTime x;
     _recordingTimer := _recordingTimer x; _speechRecognition := _speechRecognition x;
     _finalTranscript := _finalTranscript x; _transcribedText := _transcribedText x |}.
Definition set__recordingDuration (v : Z) (x : ChatInput) : ChatInput :=
  {| input_id := input_id x; value := value x; placeholder := placeholder x;
     _disabled := _disabled x; button_disabled := button_disabled x;
     focused := focused x; _isComposing := _isComposing x;
     audioInputMode := audioInputMode x; _isRecording := _isRecording x;
     _recordingDuration := v; _mediaRecorder := _mediaRecorder x;
     _audioChunks := _audioChunks x; _recordingStartTime := _recordingStartTime x;
     _recordingTimer := _recordingTimer x; _speechRecognition := _speechRecognition x;
     _finalTranscript := _finalTranscript x; _transcribedText := _transcribedText x |}.
Definition set__mediaRecorder (v : option nat) (x : ChatInput) : ChatInput :=
  {| input_id := input_id x; value := value x; placeholder := placeholder x;
     _disabled := _disabled x; button_disabled := button_disabled x;
     focused := focused x; _isComposing := _isComposing x;
     audioInputMode := audioInputMode x; _isRecording := _isRecording x;
     _recordingDuration := _recordingDuration x; _mediaRecorder := v;
     _audioChunks := _audioChunks x; _recordingStartTime := _recordingStartTime x;
     _recordingTimer := _recordingTimer x; _speechRecognition := _speechRecognition x;
     _finalTranscript := _finalTranscript x; _transcribedText := _transcribedText x |}.
Definition set__audioChunks (v : list Blob) (x : ChatInput) : ChatInput :=
  {| input_id := input_id x; value := value x; placeholder := placeholder x;
     _disabled := _disabled x; button_disabled := button_disabled x;
     focused := focused x; _isComposing := _isComposing x;
     audioInputMode := audioInputMode x; _isRecording := _isRecording x;
     _recordingDuration := _recordingDuration x; _mediaRecorder := _mediaRecorder x;
     _audioChunks := v; _recordingStartTime := _recordingStartTime x;
     _recordingTimer := _recordingTimer x; _speechRecognition := _speechRecognition x;
     _finalTranscript := _finalTranscript x; _transcribedText := _transcribedText x |}.
Definition set__recordingStartTime (v : Z) (x : ChatInput) : ChatInput :=
  {| input_id := input_id x; value := value x; placeholder := placeholder x;
     _disabled := _disabled x; button_disabled := button_disabled x;
     focused := focused x; _isComposing := _isComposing x;
     audioInputMode := audioInputMode x; _isRecording := _isRecording x;
     _recordingDuration := _recordingDuration x; _mediaRecorder := _mediaRecorder x;
     _audioChunks := _audioChunks x; _recordingStartTime := v;
     _recordingTimer := _recordingTimer x; _speechRecognition := _speechRecognition x;
     _finalTranscript := _finalTranscript x; _transcribedText := _transcribedText x |}.
Definition set__recordingTimer (v : option nat) (x : ChatInput) : ChatInput :=
  {| input_id := input_id x; value := value x; placeholder := placeholder x;
     _disabled := _disabled x; button_disabled := button_disabled x;
     focused := focused x; _isComposing := _isComposing x;
     audioInputMode := audioInputMode x; _isRecording := _isRecording x;
     _recordingDuration := _recordingDuration x; _mediaRecorder := _mediaRecorder x;
     _audioChunks := _audioChunks x; _recordingStartTime := _recordingStartTime x;
     _recordingTimer := v; _speechRecognition := _speechRecognition x;
     _finalTranscript := _finalTranscript x; _transcribedText := _transcribedText x |}.
Definition set__speechRecognition (v : option nat) (x : ChatInput) : ChatInput :=
  {| input_id := input_id x; value := value x; placeholder := placeholder x;
     _disabled := _disabled x; button_disabled := button_disabled x;
     focused := focused x; _isComposing := _isComposing x;
     audioInputMode := audioInputMode x; _isRecording := _isRecording x;
     _recordingDuration := _recordingDuration x; _mediaRecorder := _mediaRecorder x;
     _audioChunks := _audioChunks x; _recordingStartTime := _recordingStartTime x;
     _recordingTimer := _recordingTimer x; _speechRecognition := v;
     _finalTranscript := _finalTranscript x; _transcribedText := _transcribedText x |}.
Definition set__finalTranscript (v : string) (x : ChatInput) : ChatInput :=
  {| input_id := input_id x; value := value x; placeholder := placeholder x;
     _disabled := _disabled x; button_disabled := button_disabled x;
     focused := focused x; _isComposing := _isComposing x;
     audioInputMode := audioInputMode x; _isRecording := _isRecording x;
     _recordingDuration := _recordingDuration x; _mediaRecorder := _mediaRecorder x;
     _audioChunks := _audioChunks x; _recordingStartTime := _recordingStartTime x;
     _recordingTimer := _recordingTimer x; _speechRecognition := _speechRecognition x;
     _finalTranscript := v; _transcribedText := _transcribedText x |}.
Definition set__transcribedText (v : string) (x : ChatInput) : ChatInput :=
  {| input_id := input_id x; value := value x; placeholder := placeholder x;
     _disabled := _disabled x; button_disabled := button_disabled x;
     focused := focused x; _isComposing := _isComposing x;
     audioInputMode := audioInputMode x; _isRecording := _isRecording x;
     _recordingDuration := _recordingDuration x; _mediaRecorder := _mediaRecorder x;
     _audioChunks := _audioChunks x; _recordingStartTime := _recordingStartTime x;
     _recordingTimer := _recordingTimer x; _speechRecognition := _speechRecognition x;
     _finalTranscript := _finalTranscript x; _transcribedText := v |}.

(** ** What leaves the widget *)

(** [AudioInputData]; the duration is kept in milliseconds. *)
Record AudioInputData := {
  audio : string;
  audio_format : string;
  audio_duration_ms : Z;
  audio_size : Z
}.

(** [MessageActionEvent] and [FeedbackEvent] *)
Record MessageActionEvent := {
  messageIndex : Z;
  action_content : string;
  feedback : option Feedback
}.

(** The value of a [Shiny.setInputValue(name, value, { priority: "event" })]. *)
Inductive ShinyPayload :=
| TextValue (s : string)
| AudioValue (a : AudioInputData)
| ActionValue (d : MessageActionEvent).

(** The custom events the components dispatch. *)
Inductive ChatEvent :=
| shiny_chat_input_sent (detail : Message)
| shiny_chat_audio_input (detail : AudioInputData)
| shiny_chat_message_copy (detail : MessageActionEvent)
| shiny_chat_message_feedback (detail : MessageActionEvent)
| shiny_chat_message_regenerate (detail : MessageActionEvent)
| shiny_chat_message_share (detail : MessageActionEvent).

(** ** The widget

    One container with its message list ([this.messages] children, the
    transcript) and its input, the platform, and the record of what the
    widget sent out: the values set on the Shiny transport, the events
    dispatched, the console warnings.  The transport ([window.Shiny]) is
    taken to be present, as the spec assumes of its external channel. *)
Record World := {
  messages : list ChatMessage;
  input : ChatInput;
  iconAssistant : string;
  messageActions : string;
  platform : Platform;
  shiny_values : list (string * ShinyPayload);
  dispatched : list ChatEvent;
  console : list string
}.

Definition set_messages (v : list ChatMessage) (x : World) : World :=
  {| messages := v; input := input x; iconAssistant := iconAssistant x;
     messageActions := messageActions x; platform := platform x;
     shiny_values := shiny_values x; dispatched := dispatched x;
     console := console x |}.
Definition set_input (v : ChatInput) (x : World) : World :=
  {| messages := messages x; input := v; iconAssistant := iconAssistant x;
     messageActions := messageActions x; platform := platform x;
     shiny_values := shiny_values x; dispatched := dispatched x;
     console := console x |}.
Definition set_platform (v : Platform) (x : World) : World :=
  {| messages := messages x; input := input x; iconAssistant := iconAssistant x;
     messageActions := messageActions x; platform := v; shiny_values := shiny_values x;
     dispatched := dispatched x; console := console x |}.
Definition set_shiny_values (v : list (string * ShinyPayload)) (x : World) : World :=
  {| messages := messages x; input := input x; iconAssistant := iconAssistant x;
     messageActions := messageActions x; platform := platform x; shiny_values := v;
     dispatched := dispatched x; console := console x |}.
Definition set_dispatched (v : list ChatEvent) (x : World) : World :=
  {| messages := messages x; input := input x; iconAssistant := iconAssistant x;
     messageActions := messageActions x; platform := platform x;
     shiny_values := shiny_values x; dispatched := v; console := console x |}.
Definition set_console (v : list string) (x : World) : World :=
  {| messages := messages x; input := input x; iconAssistant := iconAssistant x;
     messageActions := messageActions x; platform := platform x;
     shiny_values := shiny_values x; dispatched := dispatched x; console := v |}.

(** ** Handlers as state transformers that may throw *)

Inductive JsError := Error (message : string).

Inductive Completion (A : Type) :=
| Normal (a : A)
| Throw (e : JsError).
Arguments Normal {A} a.
Arguments Throw {A} e.

Definition Act (A : Type) : Type := World -> Completion A * World.

#[global] Instance Act_ret : MRet Act := fun A a w => (Normal a, w).
#[global] Instance Act_bind : MBind Act := fun A B f m w =>
  match m w with
  | (Normal a, w') => f a w'
  | (Throw e, w') => (Throw e, w')
  end.

Definition get : Act World := fun w => (Normal w, w).
Definition modify (f : World -> World) : Act unit := fun w => (Normal tt, f w).
Definition throw {A} (e : JsError) : Act A := fun w => (Throw e, w).
Definition skip : Act unit := mret tt.
Definition when (b : bool) (a : Act unit) : Act unit := if b then a else skip.

(** The state a handler leaves behind, however it completes. *)
Definition exec {A} (a : Act A) (w : World) : World := snd (a w).

Definition modify_input (f : ChatInput -> ChatInput) : Act unit :=
  modify (fun w => set_input (f (input w)) w).
Definition modify_platform (f : Platform -> Platform) : Act unit :=
  modify (fun w => set_platform (f (platform w)) w).
Definition console_warn (msg : string) : Act unit :=
  modify (fun w => set_console (console w ++ [msg]) w).
Definition Shiny_setInputValue (name : string) (v : ShinyPayload) : Act unit :=
  modify (fun w => set_shiny_values (shiny_values w ++ [(name, v)]) w).

(** ** [ChatInput]: the [disabled] property *)

(** [#onInput] (l. 386).  [#updateHeight] only restyles the textarea. *)
Definition onInput : Act unit :=
  modify_input (fun i =>
    set_button_disabled
      (if _disabled i then true else (String.length (trim (value i)) =? 0)%nat) i).

(** [set disabled(value)] (l. 220).  The attribute it writes comes back
    through [attributeChangedCallback] with the value already stored. *)
Definition set_disabled (v : bool) : Act unit :=
  w ← get;
  if Bool.eqb v (_disabled (input w)) then skip
  else modify_input (set__disabled v) ;; onInput.

(** ** [ChatContainer]: the transcript *)

(** [this.lastMessage]: the last child of the message list, or [null]. *)
Definition lastMessage (w : World) : option ChatMessage := last (messages w).

(** Writing through the reference held in [lastMessage]. *)
Definition update_last (f : ChatMessage -> ChatMessage) (l : list ChatMessage)
  : list ChatMessage :=
  match last l with
  | Some el => removelast l ++ [f el]
  | None => l
  end.

Definition appendChild (msg : ChatMessage) : Act unit :=
  modify (fun w => set_messages (messages w ++ [msg]) w).

(** [!content] for [content = this.lastMessage?.content] *)
Definition falsy (content : option string) : bool :=
  match content with
  | Some s => negb (truthy s)
  | None => true
  end.

(** [#removeLoadingMessage] (l. 849) *)
Definition removeLoadingMessage : Act unit :=
  w ← get;
  let content := el_content <$> lastMessage w in
  when (falsy content) (modify (fun w => set_messages (removelast (messages w)) w)).

(** [#finalizeMessage] (l. 954) *)
Definition finalizeMessage : Act unit := set_disabled false.

(** [#initMessage] (l. 810) *)
Definition initMessage : Act unit :=
  removeLoadingMessage ;;
  w ← get;
  when (negb (_disabled (input w))) (set_disabled true).

Definition Role_eqb (a b : Role) : bool :=
  match a, b with
  | user, user | assistant, assistant => true
  | _, _ => false
  end.

(** The attributes [#appendMessage] gives to [createElement]: the message
    without its [role], the icon of an assistant message defaulted from the
    container, [data_role] in front, and the [message_actions] of the
    container (l. 823-829, l. 1859-1870). *)
Definition messageAttrs_of (message : Message) (w : World) : JsObject :=
  let restMessage := restMessage_of message in
  let restMessage :=
    if Role_eqb (role message) assistant && truthy (iconAssistant w)
    then obj_set "icon" (Some (or_else (default "" (icon message)) (iconAssistant w)))
           restMessage
    else restMessage in
  let messageAttrs := ("data_role", Some (Role_str (role message))) :: restMessage in
  if truthy (messageActions w)
  then obj_set "message_actions" (Some (messageActions w)) messageAttrs
  else messageAttrs.

(** [#appendMessage] (l. 817, l. 1853) *)
Definition appendMessage (message : Message) (finalize : bool) : Act unit :=
  initMessage ;;
  w ← get;
  let msg := createElement CHAT_MESSAGE_TAG (messageAttrs_of message w) in
  appendChild msg ;;
  when finalize finalizeMessage.

(** [#addLoadingMessage] (l. 840): "Loading message is just an empty message" *)
Definition loading_message : JsObject :=
  [("content", Some ""); ("role", Some "assistant")].

Definition addLoadingMessage : Act unit :=
  appendChild (createElement CHAT_MESSAGE_TAG loading_message).

(** [#onInputSent] (l. 800) and [#onAppend] (l. 806) *)
Definition onInputSent (detail : Message) : Act unit :=
  appendMessage detail true ;;
  addLoadingMessage.

Definition onAppend (detail : Message) : Act unit := appendMessage detail true.

Definition is_chunk (c : ChunkType) (message : Message) : bool :=
  match chunk_type message, c with
  | Some message_start, message_start | Some message_end, message_end => true
  | _, _ => false
  end.

(** [lastMessage.getAttribute("content") + message.content]: a missing
    attribute reads [null], which [+] prints as "null". *)
Definition attr_plus (a : option string) (s : string) : string :=
  default "null" a +:+ s.

Definition NoActiveMessage : JsError := Error "No messages found in the chat output".

(** [#appendMessageChunk] (l. 858) *)
Definition appendMessageChunk (message : Message) : Act unit :=
  when (is_chunk message_start message) (appendMessage message false) ;;
  w ← get;
  match lastMessage w with
  | None => throw NoActiveMessage
  | Some lastMessage =>
      if is_chunk message_start message then
        modify (fun w => set_messages (update_last (setAttribute "streaming" "") (messages w)) w)
      else
        let content :=
          match operation message with
          | Some op_append => attr_plus (getAttribute "content" lastMessage) (content message)
          | None => content message
          end in
        modify (fun w =>
          set_messages (update_last (setAttribute "content" content) (messages w)) w) ;;
        when (is_chunk message_end message)
          (modify (fun w =>
             set_messages (update_last (removeAttribute "streaming") (messages w)) w) ;;
           finalizeMessage)
  end.

Definition onAppendChunk (detail : Message) : Act unit := appendMessageChunk detail.

(** [#onClear] (l. 884) *)
Definition onClear : Act unit := modify (set_messages []).

(** [#onRemoveLoadingMessage] (l. 949) *)
Definition onRemoveLoadingMessage : Act unit :=
  removeLoadingMessage ;;
  finalizeMessage.

(** [baseInputId] (l. 1714) and the forwarding of the message actions to the
    transport (l. 2027-2065) *)
Definition baseInputId (w : World) : string :=
  strip_suffix "_user_input" (input_id (input w)).

Definition forward_action (suffix : string) (detail : MessageActionEvent) : Act unit :=
  w ← get;
  Shiny_setInputValue (baseInputId w +:+ suffix) (ActionValue detail).

Definition onMessageCopy := forward_action "_message_copy".
Definition onMessageFeedback := forward_action "_message_feedback".
Definition onMessageRegenerate := forward_action "_message_regenerate".
Definition onMessageShare := forward_action "_message_share".

(** [this.dispatchEvent(event)] on the input or on a message: the event is
    recorded, bubbles to the container and runs the listener that
    [#addEventListeners] (l. 749, l. 1763) attached for its name.  Nothing in
    this file listens to [shiny-chat-audio-input]. *)
Definition dispatchEvent (ev : ChatEvent) : Act unit :=
  modify (fun w => set_dispatched (dispatched w ++ [ev]) w) ;;
  match ev with
  | shiny_chat_input_sent detail => onInputSent detail
  | shiny_chat_audio_input _ => skip
  | shiny_chat_message_copy detail => onMessageCopy detail
  | shiny_chat_message_feedback detail => onMessageFeedback detail
  | shiny_chat_message_regenerate detail => onMessageRegenerate detail
  | shiny_chat_message_share detail => onMessageShare detail
  end.

(** ** [ChatInput]: submitting text *)

Definition valueIsEmpty (w : World) : bool :=
  (String.length (trim (value (input w))) =? 0)%nat.

Definition textarea_focus : Act unit := modify_input (set_focused true).

Record ChatInputSetInputOptions := { submit : bool; focus : bool }.

(** [setInputValue(value)] with the default options (l. 433): the value is
    written and the simulated [input] event runs [#onInput].  Every call that
    [setInputValue] and [#sendInput] make to each other's callee passes these
    defaults, so the recursion of the source stops here. *)
Definition setInputValue_default (v : string) : Act unit :=
  modify_input (set_value v) ;;
  onInput.

(** [#sendInput(focus = true)] (l. 404) *)
Definition sendInput (focus : bool) : Act unit :=
  w ← get;
  if valueIsEmpty w then skip
  else if _disabled (input w) then skip
  else
    Shiny_setInputValue (input_id (input w)) (TextValue (value (input w))) ;;
    dispatchEvent
      (shiny_chat_input_sent
         {| content := value (input w); role := user; chunk_type := None;
            content_type := None; icon := None; operation := None |}) ;;
    setInputValue_default "" ;;
    set_disabled true ;;
    when focus textarea_focus.

(** [setInputValue(value, { submit = false, focus = false })] (l. 433) *)
Definition setInputValue (v : string) (opts : ChatInputSetInputOptions) : Act unit :=
  w ← get;
  let oldValue := value (input w) in
  modify_input (set_value v) ;;
  onInput ;;
  when (submit opts)
    (sendInput false ;;
     when (truthy oldValue) (setInputValue_default oldValue)) ;;
  when (focus opts) textarea_focus.

Record KeyboardEvent := { code : string; shiftKey : bool }.

(** [#onKeyDown] (l. 378); [preventDefault] only stops the newline. *)
Definition onKeyDown (e : KeyboardEvent) : Act unit :=
  w ← get;
  let isEnter := String.eqb (code e) "Enter" && negb (shiftKey e) in
  when (isEnter && negb (_isComposing (input w)) && negb (valueIsEmpty w))
    (sendInput true).

(** A click on the send button: [@click=${this.#sendInput}] passes the event
    object as [focus], which is truthy. *)
Definition onSendClick : Act unit := sendInput true.

Definition onCompositionStart : Act unit := modify_input (set__isComposing true).
Definition onCompositionEnd : Act unit := modify_input (set__isComposing false).

(** ** [ChatContainer]: input updates and suggestions *)

Record UpdateUserInput := {
  upd_value : option string;
  upd_placeholder : option string;
  upd_submit : option bool;
  upd_focus : option bool
}.

(** [#onUpdateUserInput] (l. 888) *)
Definition onUpdateUserInput (detail : UpdateUserInput) : Act unit :=
  match upd_value detail with
  | Some v =>
      setInputValue v {| submit := default false (upd_submit detail);
                         focus := default false (upd_focus detail) |}
  | None => skip
  end ;;
  match upd_placeholder detail with
  | Some p => modify_input (set_placeholder p)
  | None => skip
  end.

(** What [#getSuggestion] reads of an element. *)
Record HTMLElement := {
  classList : list string;
  dataset_suggestion : option string;
  dataset_suggestionSubmit : option string;
  textContent : string
}.

(** An event with its modifier keys.  [target] is [None] when the target is
    not an [HTMLElement]; otherwise it is the target followed by its
    ancestors, inside out, which is all that [closest] looks at. *)
Record UIEvent := {
  target : option (list HTMLElement);
  key : string;
  metaKey : bool;
  ctrlKey : bool;
  altKey : bool
}.

Definition has_class (c : string) (el : HTMLElement) : bool :=
  existsb (String.eqb c) (classList el).

(** [el.matches(".suggestion, [data-suggestion]")] *)
Definition matches_suggestion (el : HTMLElement) : bool :=
  has_class "suggestion" el || bool_decide (is_Some (dataset_suggestion el)).

Record Suggestion := { suggestion : option string; suggestion_submit : option bool }.

(** [#getSuggestion] (l. 925) *)
Definition getSuggestion (x : option (list HTMLElement)) : Suggestion :=
  match x with
  | None => {| suggestion := None; suggestion_submit := None |}
  | Some chain =>
      match find matches_suggestion chain with
      | None => {| suggestion := None; suggestion_submit := None |}
      | Some el =>
          let isSuggestion :=
            has_class "suggestion" el || bool_decide (is_Some (dataset_suggestion el)) in
          if negb isSuggestion then {| suggestion := None; suggestion_submit := None |}
          else
            let s := or_else (default "" (dataset_suggestion el)) (textContent el) in
            {| suggestion := if truthy s then Some s else None;
               suggestion_submit :=
                 Some (has_class "submit" el
                       || bool_decide (dataset_suggestionSubmit el = Some "")
                       || bool_decide (dataset_suggestionSubmit el = Some "true")) |}
      end
  end.

(** [e.metaKey || e.ctrlKey ? true : e.altKey ? false : submit] *)
Definition shouldSubmit (e : UIEvent) (s : Suggestion) : bool :=
  if metaKey e || ctrlKey e then true
  else if altKey e then false
  else default false (suggestion_submit s).

(** The call that [#onInputSuggestionEvent] resolves to, if any. *)
Definition suggestion_call (e : UIEvent) : option (string * ChatInputSetInputOptions) :=
  let s := getSuggestion (target e) in
  match suggestion s with
  | None => None
  | Some value =>
      Some (value, {| submit := shouldSubmit e s; focus := negb (shouldSubmit e s) |})
  end.

(** [#onInputSuggestionEvent] (l. 909) *)
Definition onInputSuggestionEvent (e : UIEvent) : Act unit :=
  match suggestion_call e with
  | None => skip
  | Some (value, opts) => setInputValue value opts
  end.

Definition onInputSuggestionClick (e : UIEvent) : Act unit := onInputSuggestionEvent e.

(** [#onInputSuggestionKeydown] (l. 902) *)
Definition onInputSuggestionKeydown (e : UIEvent) : Act unit :=
  let isEnterOrSpace := String.eqb (key e) "Enter" || String.eqb (key e) " " in
  when isEnterOrSpace (onInputSuggestionEvent e).

(** ** [ChatMessage]: feedback *)

(** [#getMessageIndex] (l. 1348) for the message that is child [i] of the
    list: its position among the [shiny-chat-message] elements, or -1. *)
Definition is_chat_message (el : ChatMessage) : bool :=
  String.eqb (tagName el) CHAT_MESSAGE_TAG.

Definition getMessageIndex (i : nat) (w : World) : Z :=
  match messages w !! i with
  | Some el =>
      if is_chat_message el
      then Z.of_nat (length (filter (fun x => is_chat_message x = true) (take i (messages w))))
      else -1
  | None => -1
  end.

Definition set_feedback (i : nat) (fb : option Feedback) : Act unit :=
  modify (fun w => set_messages (alter (set__feedbackGiven fb) i (messages w)) w).

Definition Feedback_eqb (a b : Feedback) : bool :=
  match a, b with
  | positive, positive | negative, negative => true
  | _, _ => false
  end.

(** [#onThumbsUpClick] (l. 1382) and [#onThumbsDownClick] (l. 1399), for the
    message that is child [i] of the list. *)
Definition onFeedbackClick (which : Feedback) (i : nat) : Act unit :=
  w ← get;
  match messages w !! i with
  | None => skip
  | Some this =>
      let given :=
        match _feedbackGiven this with
        | Some f => if Feedback_eqb f which then None else Some which
        | None => Some which
        end in
      set_feedback i given ;;
      when (bool_decide (is_Some given))
        (dispatchEvent
           (shiny_chat_message_feedback
              {| messageIndex := getMessageIndex i w;
                 action_content := el_content this;
                 feedback := Some which |}))
  end.

Definition onThumbsUpClick : nat -> Act unit := onFeedbackClick positive.
Definition onThumbsDownClick : nat -> Act unit := onFeedbackClick negative.

(** ** [ChatInput]: audio capture *)

Definition isTranscribeMode (w : World) : bool :=
  String.eqb (audioInputMode (input w)) "transcribe".

Definition InvalidStateError : JsError := Error "InvalidStateError".

(** [recognition.start()]: starting a recogniser that is listening throws. *)
Definition recognition_start (r : nat) : Act unit :=
  w ← get;
  match recognitions (platform w) !! r with
  | Some o =>
      if listening o then throw InvalidStateError
      else modify_platform (fun p =>
             set_recognitions (alter (set_listening true) r (recognitions p)) p)
  | None => skip
  end.

(** [recognition.stop()]: the service stops listening; what it has heard so
    far may still arrive as a result, and the [end] event follows. *)
Definition recognition_stop (r : nat) : Act unit :=
  modify_platform (fun p =>
    set_recognitions (alter (set_listening false) r (recognitions p)) p).

(** [recorder.stop()]: stopping an inactive recorder throws; otherwise the
    recorder goes inactive and will fire [dataavailable], then [stop]. *)
Definition recorder_stop (m : nat) : Act unit :=
  w ← get;
  match recorders (platform w) !! m with
  | Some o =>
      if recording o
      then modify_platform (fun p =>
             set_recorders (alter (set_recording false) m (recorders p)) p)
      else throw InvalidStateError
  | None => skip
  end.

(** [MediaRecorder.isTypeSupported(type)] *)
Definition isTypeSupported (type : string) (w : World) : bool :=
  existsb (String.eqb type) (supported_types (platform w)).

(** [#startRecording] (l. 553) up to its [await]: the microphone is asked
    for and the rest waits for the promise to settle. *)
Definition startRecording : Act unit :=
  modify_platform (fun p => set_pending_user_media (S (pending_user_media p)) p).

(** The rest of [#startRecording], run when [getUserMedia] settles.  The
    [MediaRecorder] constructor throws on a MIME type the platform does not
    support; that, like a refused microphone, ends in the [catch]. *)
Definition startRecording_resume (granted : bool) : Act unit :=
  w ← get;
  let type :=
    if isTypeSupported "audio/webm;codecs=opus" w then "audio/webm;codecs=opus"
    else if isTypeSupported "audio/webm" w then "audio/webm"
    else "audio/wav" in
  if negb granted || negb (isTypeSupported type w)
  then console_warn "Failed to start audio recording:"
  else
    let m := length (recorders (platform w)) in
    let t := length (timers (platform w)) in
    modify_platform (fun p =>
      set_recorders
        (recorders p ++ [{| mimeType := type; recording := true; ondataavailable := true;
                            onstop := Some ReleaseTracks; stream_live := true |}]) p) ;;
    modify_platform (fun p => set_timers (timers p ++ [true]) p) ;;
    modify_input (fun i =>
      set__recordingTimer (Some t)
        (set__recordingDuration 0
           (set__recordingStartTime (now (platform w))
              (set__isRecording true
                 (set__audioChunks [] (set__mediaRecorder (Some m) i)))))).

(** [#startTranscription] (l. 476).  The recogniser is new when it is
    started, so [start()] does not throw and the [catch] is not reached. *)
Definition startTranscription : Act unit :=
  w ← get;
  if negb (speech_available (platform w)) then
    console_warn
      "Speech recognition not supported in this browser. Falling back to raw audio mode." ;;
    startRecording
  else
    let r := length (recognitions (platform w)) in
    modify_platform (fun p =>
      set_recognitions
        (recognitions p ++ [{| continuous := true; interimResults := true;
                               lang := or_else (language p) "en-US";
                               onresult := true; onerror := true; onend := true;
                               listening := false |}]) p) ;;
    modify_input (fun i =>
      set__transcribedText "" (set__finalTranscript "" (set__speechRecognition (Some r) i))) ;;
    recognition_start r ;;
    modify_input (fun i =>
      set__recordingStartTime (now (platform w)) (set__isRecording true i)).

(** [#sendAudioData] (l. 651): a reader is started on the blob; its
    [onloadend] closure is [audio_loaded] below. *)
Definition sendAudioData (blob : Blob) (format : string) (duration_ms : Z) : Act unit :=
  modify_platform (fun p =>
    set_readers
      (readers p ++ [{| reader_blob := blob; reader_format := format;
                        reader_duration_ms := duration_ms; reader_done := false |}]) p).

(** [#stopRecording(cancel)] (l. 594) *)
Definition stopRecording (cancel : bool) : Act unit :=
  w ← get;
  match _speechRecognition (input w) with
  | Some r =>
      modify_platform (fun p =>
        set_recognitions (alter (set_onend false) r (recognitions p)) p) ;;
      recognition_stop r ;;
      modify_input (set__speechRecognition None) ;;
      when (negb cancel && truthy (trim (_transcribedText (input w))))
        (setInputValue (trim (_transcribedText (input w)))
           {| submit := true; focus := true |}) ;;
      modify_input (fun i => set__transcribedText "" (set__isRecording false i))
  | None =>
      match _mediaRecorder (input w) with
      | None => skip
      | Some m =>
          if negb (_isRecording (input w)) then skip
          else
            match _recordingTimer (input w) with
            | Some t =>
                modify_platform (fun p => set_timers (<[t := false]> (timers p)) p) ;;
                modify_input (set__recordingTimer None)
            | None => skip
            end ;;
            let duration_ms := now (platform w) - _recordingStartTime (input w) in
            if cancel then
              recorder_stop m ;;
              modify_input (fun i => set__audioChunks [] (set__isRecording false i))
            else
              modify_platform (fun p =>
                set_recorders
                  (alter (set_onstop (Some (ReleaseAndSend duration_ms))) m (recorders p)) p) ;;
              recorder_stop m ;;
              modify_input (set__isRecording false)
      end
  end.

(** [#toggleRecording] (l. 463) *)
Definition toggleRecording : Act unit :=
  w ← get;
  if _isRecording (input w) then stopRecording false
  else if isTranscribeMode w then startTranscription
  else startRecording.

(** A click on the microphone button.  The button is rendered with
    [?disabled=${this.disabled}] (l. 347), and a disabled button gets no
    click. *)
Definition onMicClick : Act unit :=
  w ← get;
  if _disabled (input w) then skip else toggleRecording.

(** [disconnectedCallback] of the input (l. 268): the observer and the
    composition listeners go, and any capture is cancelled. *)
Definition disconnectedCallback : Act unit := stopRecording true.

(** *** The callbacks the platform runs *)

Record SpeechRecognitionResult := { isFinal : bool; alternatives : list string }.
Record SpeechRecognitionEvent := {
  resultIndex : nat;
  results : list SpeechRecognitionResult
}.

(** The loop of [onresult] (l. 499) over [results[resultIndex..]]: the
    finals are added to [_finalTranscript], the rest to [interimTranscript]. *)
Fixpoint collect_results (rs : list SpeechRecognitionResult) (final interim : string)
  : string * string :=
  match rs with
  | [] => (final, interim)
  | result :: rs' =>
      match alternatives result with
      | [] => collect_results rs' final interim
      | transcript :: _ =>
          if isFinal result then collect_results rs' (final +:+ transcript) interim
          else collect_results rs' final (interim +:+ transcript)
      end
  end.

Definition on_recognition_result (event : SpeechRecognitionEvent) : Act unit :=
  modify_input (fun i =>
    let '(final, interimTranscript) :=
      collect_results (drop (resultIndex event) (results event)) (_finalTranscript i) "" in
    set__transcribedText (trim (final +:+ interimTranscript)) (set__finalTranscript final i)).

(** [onerror] (l. 517) *)
Definition errorMessages (error : string) : option string :=
  if String.eqb error "network" then
    Some "Network error: Speech recognition requires internet access. Try using audio_input='raw' for offline recording."
  else if String.eqb error "not-allowed" then
    Some "Microphone access denied. Please allow microphone access in your browser."
  else if String.eqb error "no-speech" then Some "No speech detected. Please try again."
  else if String.eqb error "aborted" then Some "Speech recognition was aborted."
  else None.

Definition on_recognition_error (error : string) : Act unit :=
  console_warn (default ("Speech recognition error: " +:+ error) (errorMessages error)) ;;
  stopRecording true.

(** [onend] (l. 535): restart while the component still records. *)
Definition on_recognition_end : Act unit :=
  w ← get;
  when (_isRecording (input w))
    match _speechRecognition (input w) with
    | Some r => recognition_start r
    | None => skip
    end.

(** [ondataavailable] (l. 567) *)
Definition on_dataavailable (data : Blob) : Act unit :=
  when (0 <? blob_size data)
    (modify_input (fun i => set__audioChunks (_audioChunks i ++ [data]) i)).

Definition release_tracks (m : nat) : Act unit :=
  modify_platform (fun p =>
    set_recorders (alter (set_stream_live false) m (recorders p)) p).

(** The two [onstop] closures (l. 573 and l. 634), on recorder [m]. *)
Definition on_recorder_stop (m : nat) (h : OnStop) : Act unit :=
  match h with
  | ReleaseTracks => release_tracks m
  | ReleaseAndSend duration_ms =>
      w ← get;
      match _mediaRecorder (input w) with
      | Some current => release_tracks current
      | None => skip
      end ;;
      when (0 <? length (_audioChunks (input w)))%nat
        (let type :=
           or_else
             (default "" (mimeType <$> (_mediaRecorder (input w) ≫= fun c =>
                                          recorders (platform w) !! c)))
             "audio/webm" in
         sendAudioData (Blob_of (_audioChunks (input w)) type) type duration_ms) ;;
      modify_input (set__audioChunks [])
  end.

(** [result.split(",")[1] || ""] *)
Fixpoint after_comma (s : string) : option string :=
  match s with
  | EmptyString => None
  | String c s' => if Ascii.eqb c ","%char then Some s' else after_comma s'
  end.

Fixpoint before_comma (s : string) : string :=
  match s with
  | EmptyString => EmptyString
  | String c s' => if Ascii.eqb c ","%char then EmptyString else String c (before_comma s')
  end.

Definition split_comma_1 (s : string) : string :=
  default "" (before_comma <$> after_comma s).

(** [reader.onloadend] (l. 653) *)
Definition audio_loaded (rd : FileReader) (result : string) : Act unit :=
  w ← get;
  let audioData :=
    {| audio := split_comma_1 result; audio_format := reader_format rd;
       audio_duration_ms := reader_duration_ms rd;
       audio_size := blob_size (reader_blob rd) |} in
  Shiny_setInputValue (input_id (input w) +:+ "_audio") (AudioValue audioData) ;;
  dispatchEvent (shiny_chat_audio_input audioData).

(** What the platform can do to the component between two handlers. *)
Inductive PlatformEvent :=
| RecognitionResult (r : nat) (event : SpeechRecognitionEvent)
| RecognitionError (r : nat) (error : string)
| RecognitionEnd (r : nat)
| UserMediaSettled (granted : bool)
| RecorderData (m : nat) (data : Blob)
| RecorderStopped (m : nat)
| TimerFired (t : nat)
| ReaderLoadEnd (k : nat) (result : string)
| ClockAdvance (ms : Z).

Definition set_reader_done (rd : FileReader) : FileReader :=
  {| reader_blob := reader_blob rd; reader_format := reader_format rd;
     reader_duration_ms := reader_duration_ms rd; reader_done := true |}.

Definition platform_event (ev : PlatformEvent) : Act unit :=
  w ← get;
  let p := platform w in
  match ev with
  | RecognitionResult r event =>
      match recognitions p !! r with
      | Some o => when (onresult o) (on_recognition_result event)
      | None => skip
      end
  | RecognitionError r error =>
      match recognitions p !! r with
      | Some o => when (onerror o) (on_recognition_error error)
      | None => skip
      end
  | RecognitionEnd r =>
      match recognitions p !! r with
      | Some o => recognition_stop r ;; when (onend o) on_recognition_end
      | None => skip
      end
  | UserMediaSettled granted =>
      match pending_user_media p with
      | O => skip
      | S n =>
          modify_platform (set_pending_user_media n) ;;
          startRecording_resume granted
      end
  | RecorderData m data =>
      match recorders p !! m with
      | Some o => when (ondataavailable o) (on_dataavailable data)
      | None => skip
      end
  | RecorderStopped m =>
      match recorders p !! m with
      | Some o =>
          modify_platform (fun p =>
            set_recorders (alter (set_recording false) m (recorders p)) p) ;;
          match onstop o with
          | Some h => on_recorder_stop m h
          | None => skip
          end
      | None => skip
      end
  | TimerFired t =>
      when (default false (timers p !! t))
        (modify_input (fun i =>
           set__recordingDuration ((now p - _recordingStartTime i) / 1000) i))
  | ReaderLoadEnd k result =>
      match readers p !! k with
      | Some rd =>
          if reader_done rd then skip
          else
            modify_platform (fun p => set_readers (<[k := set_reader_done rd]> (readers p)) p) ;;
            audio_loaded rd result
      | None => skip
      end
  | ClockAdvance ms => modify_platform (fun p => set_now (now p + Z.max 0 ms) p)
  end.

(** ** Runs of inbound operations *)

(** The two transcript operations of the spec, as the transport delivers
    them ([shiny-chat-append-message], [shiny-chat-append-message-chunk]). *)
Inductive TranscriptOp :=
| Append (message : Message)
| AppendChunk (message : Message).

Definition transcript_op (op : TranscriptOp) : Act unit :=
  match op with
  | Append message => onAppend message
  | AppendChunk message => onAppendChunk message
  end.

(** Each event gets its own handler run; a handler that throws ends there
    and the next event finds the state it left. *)
Definition run_ops (ops : list TranscriptOp) (w : World) : World :=
  fold_left (fun w op => exec (transcript_op op) w) ops w.

Definition run_platform (evs : list PlatformEvent) (w : World) : World :=
  fold_left (fun w ev => exec (platform_event ev) w) evs w.

(** A loading placeholder: no content, assistant role.  The element keeps no
    mark of having been finalized, so none is asked for. *)
Definition is_loading_placeholder (el : ChatMessage) : bool :=
  negb (truthy (el_content el)) && String.eqb (el_role el) "assistant".

Definition count_placeholders (l : list ChatMessage) : nat :=
  length (filter (fun el => is_loading_placeholder el = true) l).

(** No message but the last may be a placeholder. *)
Definition placeholder_only_last (l : list ChatMessage) : Prop :=
  Forall (fun el => is_loading_placeholder el = false) (removelast l).

(** The widget as it is attached: an empty transcript, an enabled and empty
    input, nothing captured, nothing sent. *)
Definition initial_input : ChatInput :=
  {| input_id := "chat_user_input"; value := ""; placeholder := "Enter a message...";
     _disabled := false; button_disabled := true; focused := false;
     _isComposing := false; audioInputMode := ""; _isRecording := false;
     _recordingDuration := 0; _mediaRecorder := None; _audioChunks := [];
     _recordingStartTime := 0; _recordingTimer := None; _speechRecognition := None;
     _finalTranscript := ""; _transcribedText := "" |}.

Definition initial_platform : Platform :=
  {| now := 0; speech_available := true; language := "en-US";
     supported_types := ["audio/webm;codecs=opus"; "audio/webm"];
     recognitions := []; recorders := []; timers := []; readers := [];
     pending_user_media := 0 |}.

Definition initial_world : World :=
  {| messages := []; input := initial_input; iconAssistant := "";
     messageActions := ""; platform := initial_platform; shiny_values := [];
     dispatched := []; console := [] |}.

(** * Definitions for the statements

    The handlers written as functions of the widget state, the predicates
    of the properties, and the concrete widgets and events they are tried
    on. *)

(** [set disabled] as a function of the input. *)
Definition disabled_to (v : bool) (i : ChatInput) : ChatInput :=
  if Bool.eqb v (_disabled i) then i
  else
    let i' := set__disabled v i in
    set_button_disabled
      (if _disabled i' then true else (String.length (trim (value i')) =? 0)%nat) i'.

(** [#removeLoadingMessage] as a function of the transcript. *)
Definition remove_loading (l : list ChatMessage) : list ChatMessage :=
  if falsy (el_content <$> last l) then removelast l else l.

(** The element [#appendMessage] appends for a message. *)
Definition new_message (message : Message) (w : World) : ChatMessage :=
  createElement CHAT_MESSAGE_TAG (messageAttrs_of message w).

(** [#appendMessageChunk] on any other chunk. *)
Definition chunk_content (message : Message) (lastMessage : ChatMessage) : string :=
  match operation message with
  | Some op_append => attr_plus (getAttribute "content" lastMessage) (content message)
  | None => content message
  end.

(** An operation that appends a message: [append], or a start chunk. *)
Definition appends (op : TranscriptOp) : bool :=
  match op with
  | Append _ => true
  | AppendChunk message => is_chunk message_start message
  end.

(** The detail of [shiny-chat-input-sent] that [#sendInput] builds. *)
Definition user_message (s : string) : Message :=
  {| content := s; role := user; chunk_type := None; content_type := None;
     icon := None; operation := None |}.

(** An assistant message or chunk as the server sends it. *)
Definition chunk (c : option ChunkType) (s : string) (o : option Operation) : Message :=
  {| content := s; role := assistant; chunk_type := c; content_type := Some markdown;
     icon := None; operation := o |}.

(** The widget after the user has sent "hello": the user message and the
    loading placeholder. *)
Definition awaiting_world : World :=
  exec (onInputSent (user_message "hello")) initial_world.

(** Three turns without content. *)
Definition empty_turns : list TranscriptOp :=
  [AppendChunk (chunk (Some message_start) "" None);
   AppendChunk (chunk None "" (Some op_append));
   Append (chunk None "" None)].

(** What a chunk that is not a start chunk leaves as the last message. *)
Definition written_chunk (message : Message) (lastMessage : ChatMessage) : ChatMessage :=
  let el := setAttribute "content" (chunk_content message lastMessage) lastMessage in
  if is_chunk message_end message then removeAttribute "streaming" el else el.

(** The streamed turn of the spec: start, "Hel", "lo", end. *)
Definition hello_stream : list TranscriptOp :=
  [AppendChunk (chunk (Some message_start) "" None);
   AppendChunk (chunk None "Hel" (Some op_append));
   AppendChunk (chunk None "lo" (Some op_append));
   AppendChunk (chunk (Some message_end) "" (Some op_append))].

(** Empty or made of whitespace only. *)
Definition whitespace_only (s : string) : bool :=
  forallb isWhiteSpace (list_ascii_of_string s).

(** [trim] on the list of characters. *)
Definition trim_list (l : list ascii) : list ascii :=
  rev (dropWhiteSpace (rev (dropWhiteSpace l))).

(** Empty, or beginning with a character that is not whitespace. *)
Definition headed (l : list ascii) : Prop :=
  match l with
  | [] => True
  | c :: _ => isWhiteSpace c = false
  end.

(** The element [#addLoadingMessage] appends. *)
Definition loading_element : ChatMessage := createElement CHAT_MESSAGE_TAG loading_message.

(** The input after a submission: emptied, disabled, focused if asked. *)
Definition submitted_input (focus : bool) (i : ChatInput) : ChatInput :=
  let i := set_button_disabled true (set_value "" (disabled_to false (disabled_to true i))) in
  let i := disabled_to true i in
  if focus then set_focused true i else i.

(** The widget after the submission of the value of its input. *)
Definition sent (focus : bool) (w : World) : World :=
  let v := value (input w) in
  set_input (submitted_input focus (input w))
    (set_messages
       (remove_loading (messages w) ++ [new_message (user_message v) w; loading_element])
       (set_dispatched (dispatched w ++ [shiny_chat_input_sent (user_message v)])
          (set_shiny_values (shiny_values w ++ [(input_id (input w), TextValue v)]) w))).

(** The attached widget with [s] typed in its input. *)
Definition typed_world (s : string) : World :=
  exec (setInputValue_default s) initial_world.

(** A suggestion without a submit flag, clicked with the command key held. *)
Definition suggestion_link : HTMLElement :=
  {| classList := ["suggestion"]; dataset_suggestion := None;
     dataset_suggestionSubmit := None; textContent := "Tell me more" |}.

Definition cmd_click : UIEvent :=
  {| target := Some [suggestion_link]; key := ""; metaKey := true; ctrlKey := false;
     altKey := false |}.

(** What the transcript store holds of a message: its tag and its
    attributes (content, role, content type, streaming, icon, actions).  The
    [@state] fields are the element's own view state. *)
Definition stored (el : ChatMessage) : string * gmap string string :=
  (tagName el, attributes el).

(** The feedback event of message [i]. *)
Definition feedback_event (which : Feedback) (i : nat) (w : World) : ChatEvent :=
  shiny_chat_message_feedback
    {| messageIndex := getMessageIndex i w;
       action_content := default "" (el_content <$> messages w !! i);
       feedback := Some which |}.

(** The widget after the assistant has answered "Hi there". *)
Definition answered_world : World :=
  run_ops [Append (chunk None "Hi there" None)] awaiting_world.

(** The identity and the capture fields of the input, which the text path
    leaves alone. *)
Definition capture_state (i : ChatInput) :=
  (input_id i, audioInputMode i, _isRecording i, _recordingDuration i, _mediaRecorder i,
   _audioChunks i, _recordingStartTime i, _recordingTimer i, _speechRecognition i,
   _finalTranscript i, _transcribedText i).

(** What a handler of the text path does not touch. *)
Definition text_frame (w w' : World) : Prop :=
  platform w' = platform w
  /\ capture_state (input w') = capture_state (input w)
  /\ iconAssistant w' = iconAssistant w
  /\ messageActions w' = messageActions w.

(** The input after [value] is written to the textarea and [#onInput] ran. *)
Definition typed (v : string) (i : ChatInput) : ChatInput :=
  set_button_disabled
    (if _disabled i then true else (String.length (trim v) =? 0)%nat) (set_value v i).

(** [setInputValue] as a function of the widget. *)
Definition set_input_value (v : string) (opts : ChatInputSetInputOptions) (w : World)
  : World :=
  let oldValue := value (input w) in
  let w1 := set_input (typed v (input w)) w in
  let w2 :=
    if submit opts then
      let w2 := if whitespace_only v || _disabled (input w) then w1 else sent false w1 in
      if truthy oldValue then set_input (typed oldValue (input w2)) w2 else w2
    else w1 in
  if focus opts then set_input (set_focused true (input w2)) w2 else w2.

(** [#stopRecording(cancel)] while a recogniser is held, as a function of
    the widget. *)
Definition stop_transcription (cancel : bool) (r : nat) (w : World) : World :=
  let displayed := _transcribedText (input w) in
  let w1 :=
    set_input (set__speechRecognition None (input w))
      (set_platform
         (set_recognitions
            (alter (set_listening false) r
               (alter (set_onend false) r (recognitions (platform w))))
            (platform w)) w) in
  let w2 :=
    if negb cancel && negb (whitespace_only displayed)
    then set_input_value (trim displayed) {| submit := true; focus := true |} w1
    else w1 in
  set_input (set__transcribedText "" (set__isRecording false (input w2))) w2.

(** The attached widget with its [audio-input] attribute set. *)
Definition audio_world (mode : string) : World :=
  set_input
    {| input_id := "chat_user_input"; value := ""; placeholder := "Enter a message...";
       _disabled := false; button_disabled := true; focused := false;
       _isComposing := false; audioInputMode := mode; _isRecording := false;
       _recordingDuration := 0; _mediaRecorder := None; _audioChunks := [];
       _recordingStartTime := 0; _recordingTimer := None; _speechRecognition := None;
       _finalTranscript := ""; _transcribedText := "" |}
    initial_world.

(** A recognition result: "hello " is final, "world " is still interim. *)
Definition heard : SpeechRecognitionEvent :=
  {| resultIndex := 0;
     results := [{| isFinal := true; alternatives := ["hello "] |};
                 {| isFinal := false; alternatives := ["world "; "word "] |}] |}.

(** The user has clicked the microphone and said "hello world". *)
Definition dictating_world : World :=
  run_platform [RecognitionResult 0 heard] (exec onMicClick (audio_world "transcribe")).

(** What the widget has sent out and what its transcript holds. *)
Definition outputs (w : World) :=
  (shiny_values w, dispatched w, messages w).




(** The user has clicked the microphone, granted it, and recorded for three
    seconds. *)
Definition recording_world : World :=
  run_platform [UserMediaSettled true; ClockAdvance 3000; TimerFired 0]
    (exec onMicClick (audio_world "raw")).

(** Two blobs, one with data and one without. *)
Definition some_bytes : Blob := {| bytes := [x00; x01]; blob_type := "audio/webm" |}.
Definition silence : Blob := {| bytes := []; blob_type := "audio/webm" |}.






(** The user has clicked the microphone and is torn away before the
    microphone is granted. *)
Definition asking_world : World := exec onMicClick (audio_world "raw").



(** [#stopRecording(false)] on a raw recording in progress, as a function of
    the widget: the timer is cleared, the sending [onstop] closure is
    installed with the duration so far, and the recorder is stopped. *)
Definition stop_raw (m : nat) (w : World) : World :=
  let duration_ms := now (platform w) - _recordingStartTime (input w) in
  let w0 :=
    match _recordingTimer (input w) with
    | Some t =>
        set_input (set__recordingTimer None (input w))
          (set_platform (set_timers (<[t := false]> (timers (platform w))) (platform w)) w)
    | None => w
    end in
  set_input (set__isRecording false (input w0))
    (set_platform
       (set_recorders
          (alter (set_recording false) m
             (alter (set_onstop (Some (ReleaseAndSend duration_ms))) m
                (recorders (platform w0))))
          (platform w0)) w0).

(** The [dataavailable] events of a recorder whose handler is installed
    buffer the blobs that are not empty, in order, and do nothing else. *)
Definition buffer_data (datas : list Blob) (w : World) : World :=
  set_input
    (set__audioChunks
       (_audioChunks (input w) ++ filter (fun b => 0 < blob_size b) datas) (input w)) w.

(** The reader that the sending [onstop] closure starts. *)
Definition audio_reader (chunks : list Blob) (o : MediaRecorder) (duration_ms : Z)
  : FileReader :=
  let type := or_else (mimeType o) "audio/webm" in
  {| reader_blob := Blob_of chunks type; reader_format := type;
     reader_duration_ms := duration_ms; reader_done := false |}.

(** The recorder that [#startRecording] creates on the attached widget. *)
Definition first_recorder : MediaRecorder :=
  {| mimeType := "audio/webm;codecs=opus"; recording := true; ondataavailable := true;
     onstop := Some ReleaseTracks; stream_live := true |}.

(** * Properties *)

(** ** Running handlers *)

Lemma bind_unfold {A B} (m : Act A) (f : A -> Act B) (w : World) :
  (m ≫= f) w =
  match m w with
  | (Normal a, w') => f a w'
  | (Throw e, w') => (Throw e, w')
  end.
Proof. reflexivity. Qed.

Create Rewrite HintDb act_run.

#[local] Arguments createElement : simpl never.
#[local] Arguments trim : simpl never.
#[local] Arguments String.eqb : simpl never.

Ltac act_unfold :=
  cbv beta delta [when skip get modify_input modify_platform console_warn
                  Shiny_setInputValue appendChild modify throw mret Act_ret].

(** Run the handler in the goal as far as its control flow is known. *)
Ltac act :=
  repeat (progress (act_unfold; repeat rewrite bind_unfold;
                    try (autorewrite with act_run); cbn)).

#[local] Arguments disabled_to : simpl never.

Lemma set_input_same w : set_input (input w) w = w.
Proof. destruct w; reflexivity. Qed.

Lemma set_messages_same w : set_messages (messages w) w = w.
Proof. destruct w; reflexivity. Qed.

Lemma set_disabled_run v w :
  set_disabled v w = (Normal tt, set_input (disabled_to v (input w)) w).
Proof.
  unfold set_disabled, disabled_to, onInput. act.
  destruct (Bool.eqb v (_disabled (input w))); [|reflexivity].
  now rewrite set_input_same.
Qed.
#[local] Hint Rewrite set_disabled_run : act_run.

Lemma disabled_to_disabled v i : _disabled (disabled_to v i) = v.
Proof.
  unfold disabled_to. destruct (Bool.eqb v (_disabled i)) eqn:E; cbn; [|reflexivity].
  apply Bool.eqb_prop in E. congruence.
Qed.
#[local] Hint Rewrite disabled_to_disabled : act_run.

(** [set disabled] touches [_disabled] and the send button only. *)
Ltac disabled_frame :=
  intros; unfold disabled_to; destruct (Bool.eqb _ _); reflexivity.
Lemma disabled_to_input_id v i : input_id (disabled_to v i) = input_id i.
Proof. disabled_frame. Qed.
Lemma disabled_to_value v i : value (disabled_to v i) = value i.
Proof. disabled_frame. Qed.
Lemma disabled_to_placeholder v i : placeholder (disabled_to v i) = placeholder i.
Proof. disabled_frame. Qed.
Lemma disabled_to_focused v i : focused (disabled_to v i) = focused i.
Proof. disabled_frame. Qed.
Lemma disabled_to_isComposing v i : _isComposing (disabled_to v i) = _isComposing i.
Proof. disabled_frame. Qed.
Lemma disabled_to_audioInputMode v i : audioInputMode (disabled_to v i) = audioInputMode i.
Proof. disabled_frame. Qed.
Lemma disabled_to_isRecording v i : _isRecording (disabled_to v i) = _isRecording i.
Proof. disabled_frame. Qed.
Lemma disabled_to_recordingDuration v i : _recordingDuration (disabled_to v i) = _recordingDuration i.
Proof. disabled_frame. Qed.
Lemma disabled_to_mediaRecorder v i : _mediaRecorder (disabled_to v i) = _mediaRecorder i.
Proof. disabled_frame. Qed.
Lemma disabled_to_audioChunks v i : _audioChunks (disabled_to v i) = _audioChunks i.
Proof. disabled_frame. Qed.
Lemma disabled_to_recordingStartTime v i : _recordingStartTime (disabled_to v i) = _recordingStartTime i.
Proof. disabled_frame. Qed.
Lemma disabled_to_recordingTimer v i : _recordingTimer (disabled_to v i) = _recordingTimer i.
Proof. disabled_frame. Qed.
Lemma disabled_to_speechRecognition v i : _speechRecognition (disabled_to v i) = _speechRecognition i.
Proof. disabled_frame. Qed.
Lemma disabled_to_finalTranscript v i : _finalTranscript (disabled_to v i) = _finalTranscript i.
Proof. disabled_frame. Qed.
Lemma disabled_to_transcribedText v i : _transcribedText (disabled_to v i) = _transcribedText i.
Proof. disabled_frame. Qed.
#[local] Hint Rewrite disabled_to_input_id disabled_to_value disabled_to_placeholder disabled_to_focused disabled_to_isComposing disabled_to_audioInputMode disabled_to_isRecording disabled_to_recordingDuration disabled_to_mediaRecorder disabled_to_audioChunks disabled_to_recordingStartTime disabled_to_recordingTimer disabled_to_speechRecognition disabled_to_finalTranscript disabled_to_transcribedText : act_run.

#[local] Arguments remove_loading : simpl never.

Lemma removeLoadingMessage_run w :
  removeLoadingMessage w = (Normal tt, set_messages (remove_loading (messages w)) w).
Proof.
  unfold removeLoadingMessage, remove_loading, lastMessage. act.
  destruct (falsy _); [reflexivity|]. now rewrite set_messages_same.
Qed.
#[local] Hint Rewrite removeLoadingMessage_run : act_run.

Lemma initMessage_run w :
  initMessage w =
  (Normal tt,
   set_input (disabled_to true (input w))
     (set_messages (remove_loading (messages w)) w)).
Proof.
  unfold initMessage. act.
  destruct (_disabled (input w)) eqn:E; act; [|reflexivity].
  unfold disabled_to. rewrite E. cbn. destruct w; reflexivity.
Qed.
#[local] Hint Rewrite initMessage_run : act_run.

Lemma finalizeMessage_run w :
  finalizeMessage w = (Normal tt, set_input (disabled_to false (input w)) w).
Proof. apply set_disabled_run. Qed.
#[local] Hint Rewrite finalizeMessage_run : act_run.

#[local] Arguments new_message : simpl never.

Lemma appendMessage_run message finalize w :
  appendMessage message finalize w =
  (Normal tt,
   set_input
     (let i := disabled_to true (input w) in
      if finalize then disabled_to false i else i)
     (set_messages (remove_loading (messages w) ++ [new_message message w]) w)).
Proof.
  unfold appendMessage. act. destruct finalize; act; reflexivity.
Qed.
#[local] Hint Rewrite appendMessage_run : act_run.

(** ** The transcript under [append] and [appendChunk] *)

Lemma update_last_snoc f l x : update_last f (l ++ [x]) = l ++ [f x].
Proof. unfold update_last. now rewrite last_snoc, removelast_last. Qed.

Lemma update_last_nil f : update_last f [] = [].
Proof. reflexivity. Qed.

Lemma last_Some_snoc (l : list ChatMessage) x :
  last l = Some x -> l = removelast l ++ [x].
Proof.
  destruct l as [|y l] using rev_ind; [discriminate|].
  rewrite last_snoc, removelast_last. now intros [= ->].
Qed.

Lemma removelast_update_last f l : removelast (update_last f l) = removelast l.
Proof.
  unfold update_last. destruct (last l) eqn:E; [|reflexivity].
  now rewrite removelast_last.
Qed.

(** [#appendMessageChunk] on a start chunk: the message is appended without
    finalizing and gets the [streaming] attribute. *)
Lemma appendMessageChunk_start_run message w :
  is_chunk message_start message = true ->
  appendMessageChunk message w =
  (Normal tt,
   set_input (disabled_to true (input w))
     (set_messages
        (remove_loading (messages w)
         ++ [setAttribute "streaming" "" (new_message message w)]) w)).
Proof.
  intros Hs. unfold appendMessageChunk, lastMessage. rewrite Hs. act.
  rewrite last_snoc. act. now rewrite update_last_snoc.
Qed.

Lemma appendMessageChunk_next_run message w :
  is_chunk message_start message = false ->
  appendMessageChunk message w =
  match last (messages w) with
  | None => (Throw NoActiveMessage, w)
  | Some lastMessage =>
      let written :=
        update_last (setAttribute "content" (chunk_content message lastMessage))
          (messages w) in
      if is_chunk message_end message
      then (Normal tt,
            set_input (disabled_to false (input w))
              (set_messages (update_last (removeAttribute "streaming") written) w))
      else (Normal tt, set_messages written w)
  end.
Proof.
  intros Hs. unfold appendMessageChunk, lastMessage, chunk_content. rewrite Hs. act.
  destruct (last (messages w)) as [lm|] eqn:E; [|reflexivity]. act.
  destruct (is_chunk message_end message); act; reflexivity.
Qed.

Lemma placeholder_only_last_snoc l x :
  placeholder_only_last (l ++ [x]) <-> Forall (fun el => is_loading_placeholder el = false) l.
Proof. unfold placeholder_only_last. now rewrite removelast_last. Qed.

Lemma remove_loading_clean l :
  placeholder_only_last l ->
  Forall (fun el => is_loading_placeholder el = false) (remove_loading l).
Proof.
  intros H. unfold remove_loading.
  destruct (falsy (el_content <$> last l)) eqn:E; [exact H|].
  destruct (last l) as [x|] eqn:El.
  - rewrite (last_Some_snoc _ _ El). apply Forall_app. split; [exact H|].
    constructor; [|constructor]. cbn in E. unfold is_loading_placeholder.
    apply negb_false_iff in E. now rewrite E.
  - apply last_None in El. subst l. constructor.
Qed.

Lemma placeholder_only_last_update f l :
  placeholder_only_last l -> placeholder_only_last (update_last f l).
Proof. unfold placeholder_only_last. now rewrite removelast_update_last. Qed.

Lemma transcript_op_preserves op w :
  placeholder_only_last (messages w) ->
  placeholder_only_last (messages (exec (transcript_op op) w)).
Proof.
  intros H. destruct op as [m|m]; cbn [transcript_op]; unfold onAppend, onAppendChunk, exec.
  - rewrite appendMessage_run. cbn.
    apply placeholder_only_last_snoc, remove_loading_clean, H.
  - destruct (is_chunk message_start m) eqn:Hs.
    + rewrite appendMessageChunk_start_run by exact Hs. cbn.
      apply placeholder_only_last_snoc, remove_loading_clean, H.
    + rewrite appendMessageChunk_next_run by exact Hs.
      destruct (last (messages w)) eqn:E; [|exact H].
      cbn zeta. destruct (is_chunk message_end m); cbn;
        repeat apply placeholder_only_last_update; exact H.
Qed.

Lemma run_ops_preserves ops w :
  placeholder_only_last (messages w) ->
  placeholder_only_last (messages (run_ops ops w)).
Proof.
  revert w. induction ops as [|op ops IH]; intros w H; [exact H|].
  cbn. apply IH, transcript_op_preserves, H.
Qed.

Lemma count_placeholders_le_1 l :
  placeholder_only_last l -> (count_placeholders l <= 1)%nat.
Proof.
  unfold placeholder_only_last, count_placeholders.
  destruct l as [|x l] using rev_ind; [cbn; lia|]. clear IHl.
  rewrite removelast_last, filter_app, length_app. intros H.
  replace (filter _ l) with (@nil ChatMessage).
  - rewrite filter_cons, filter_nil. case_decide; cbn; lia.
  - symmetry. induction H as [|y l Hy _ IH]; [reflexivity|].
    rewrite filter_cons. case_decide; [congruence|exact IH].
Qed.

(** C1.  Over every sequence of [append] and [appendChunk] operations, from
    a transcript in which only the last message may be a loading placeholder
    (the empty transcript is one), at most one message of the transcript is
    a loading placeholder, it can only be the last one, and an operation
    that appends a message first removes it: what is kept of the transcript
    holds no placeholder and the new message comes right after. *)
Theorem C1_at_most_one_loading_placeholder (w : World) (ops : list TranscriptOp) :
  placeholder_only_last (messages w) ->
  let w' := run_ops ops w in
  (count_placeholders (messages w') <= 1)%nat
  /\ placeholder_only_last (messages w')
  /\ forall op, appends op = true ->
       let kept := messages (exec removeLoadingMessage w') in
       Forall (fun el => is_loading_placeholder el = false) kept
       /\ exists el, messages (exec (transcript_op op) w') = kept ++ [el].
Proof.
  intros H w'. assert (H' : placeholder_only_last (messages w'))
    by apply run_ops_preserves, H.
  split; [apply count_placeholders_le_1, H'|]. split; [exact H'|].
  intros op Hop kept. subst kept. unfold exec. rewrite removeLoadingMessage_run.
  cbn [snd messages set_messages]. split; [apply remove_loading_clean, H'|].
  destruct op as [m|m]; cbn [transcript_op appends] in *; unfold onAppend, onAppendChunk.
  - rewrite appendMessage_run. cbn. eauto.
  - rewrite appendMessageChunk_start_run by exact Hop. cbn. eauto.
Qed.

Lemma C1_witness :
  count_placeholders (messages awaiting_world) = 1%nat
  /\ (count_placeholders (messages (run_ops empty_turns awaiting_world)) <= 1)%nat.
Proof.
  split; [vm_compute; reflexivity|].
  apply (C1_at_most_one_loading_placeholder awaiting_world empty_turns).
  vm_compute. repeat constructor.
Defined.

(** ** What [createElement] makes of a message *)

Ltac message_cases message w :=
  unfold new_message, messageAttrs_of, restMessage_of;
  destruct message as [c r ct cty ic op]; cbn [content role chunk_type content_type icon operation];
  destruct (truthy (messageActions w)), (truthy (iconAssistant w)), r, ct, cty, ic, op;
  vm_compute; try reflexivity.

Lemma new_message_content message w :
  getAttribute "content" (new_message message w) = Some (content message).
Proof. message_cases message w. Qed.

Lemma new_message_role message w :
  getAttribute "data-role" (new_message message w) = Some (Role_str (role message)).
Proof. message_cases message w. Qed.

Lemma new_message_streaming message w :
  getAttribute "streaming" (new_message message w) = None.
Proof. message_cases message w. Qed.

Lemma getAttribute_setAttribute name value el :
  getAttribute name (setAttribute name value el) = Some value.
Proof. unfold getAttribute, setAttribute. cbn. apply lookup_insert_eq. Qed.

Lemma getAttribute_setAttribute_ne name name' value el :
  name' <> name ->
  getAttribute name (setAttribute name' value el) = getAttribute name el.
Proof. intros H. unfold getAttribute, setAttribute. cbn. now apply lookup_insert_ne. Qed.

Lemma getAttribute_removeAttribute name el :
  getAttribute name (removeAttribute name el) = None.
Proof. unfold getAttribute, removeAttribute. cbn. apply lookup_delete_eq. Qed.

Lemma getAttribute_removeAttribute_ne name name' el :
  name' <> name ->
  getAttribute name (removeAttribute name' el) = getAttribute name el.
Proof. intros H. unfold getAttribute, removeAttribute. cbn. now apply lookup_delete_ne. Qed.

Lemma run_ops_cons op ops w :
  run_ops (op :: ops) w = run_ops ops (exec (transcript_op op) w).
Proof. reflexivity. Qed.

Lemma remove_loading_nil : remove_loading [] = [].
Proof. reflexivity. Qed.

Lemma appendMessageChunk_next_messages message w lastMessage :
  is_chunk message_start message = false ->
  last (messages w) = Some lastMessage ->
  appendMessageChunk message w =
  (Normal tt,
   set_input
     (if is_chunk message_end message then disabled_to false (input w) else input w)
     (set_messages (removelast (messages w) ++ [written_chunk message lastMessage]) w)).
Proof.
  intros Hs Hl. rewrite appendMessageChunk_next_run by exact Hs. rewrite Hl. cbn zeta.
  unfold written_chunk, update_last at 2 3. rewrite Hl, !update_last_snoc.
  destruct (is_chunk message_end message); [reflexivity|]. now destruct w.
Qed.

Lemma getAttribute_content_written message lastMessage :
  getAttribute "content" (written_chunk message lastMessage) =
  Some (chunk_content message lastMessage).
Proof.
  unfold written_chunk. destruct (is_chunk message_end message).
  - rewrite getAttribute_removeAttribute_ne by discriminate.
    apply getAttribute_setAttribute.
  - apply getAttribute_setAttribute.
Qed.

Lemma el_content_written message lastMessage :
  el_content (written_chunk message lastMessage) = chunk_content message lastMessage.
Proof. unfold el_content. now rewrite getAttribute_content_written. Qed.

(** C2.  On an empty transcript the chunks [message_start] (assistant, no
    content yet), "Hel" appended, "lo" appended, [message_end] with "" appended
    leave exactly one message, with content "Hello" and not streaming; and a
    chunk that is not a start chunk sets the content of the last message to
    its previous content followed by the chunk's content when the operation
    is [append], and to the chunk's content alone otherwise. *)
Theorem C2_hello_stream (w : World) :
  messages w = [] ->
  (exists el,
     messages (run_ops hello_stream w) = [el]
     /\ el_content el = "Hello" /\ el_streaming el = false)
  /\ forall w' message lastMessage previous_content,
       is_chunk message_start message = false ->
       last (messages w') = Some lastMessage ->
       getAttribute "content" lastMessage = Some previous_content ->
       el_content <$> last (messages (exec (appendMessageChunk message) w')) =
       Some match operation message with
            | Some op_append => previous_content +:+ content message
            | None => content message
            end.
Proof.
  intros Hw. split.
  - unfold hello_stream. rewrite run_ops_cons. cbn [transcript_op].
    unfold onAppendChunk, exec.
    rewrite appendMessageChunk_start_run by reflexivity. cbn [snd].
    rewrite Hw, remove_loading_nil. cbn [app].
    do 3 (rewrite run_ops_cons; cbn [transcript_op]; unfold onAppendChunk, exec;
          erewrite appendMessageChunk_next_messages;
          [|reflexivity|cbn [messages set_messages set_input]; reflexivity];
          cbn [snd messages set_messages set_input removelast app]).
    cbn [run_ops fold_left messages set_messages set_input].
    eexists. split; [reflexivity|]. split.
    + rewrite el_content_written. unfold chunk_content at 1. cbn [operation chunk content].
      repeat (rewrite getAttribute_content_written; unfold chunk_content at 1;
              cbn [operation chunk content]).
      rewrite getAttribute_setAttribute_ne by discriminate.
      rewrite new_message_content. reflexivity.
    + unfold written_chunk at 1. cbn [is_chunk chunk chunk_type]. unfold el_streaming.
      now rewrite getAttribute_removeAttribute.
  - intros w' m lm prev Hs Hl Hp. unfold exec.
    rewrite (appendMessageChunk_next_messages _ _ _ Hs Hl). cbn [snd messages set_messages set_input].
    rewrite last_snoc. cbn. rewrite el_content_written. unfold chunk_content.
    rewrite Hp. now destruct (operation m) as [[]|].
Qed.

Lemma C2_witness :
  messages initial_world = []
  /\ el_content <$> messages (run_ops hello_stream initial_world) = ["Hello"]
  /\ el_streaming <$> messages (run_ops hello_stream initial_world) = [false].
Proof.
  split; [reflexivity|].
  destruct (C2_hello_stream initial_world eq_refl) as [(el & Hm & Hc & Hs) _].
  rewrite Hm. cbn. rewrite Hc, Hs. split; reflexivity.
Defined.

(** C3.  On an empty transcript a chunk that is not a start chunk makes
    [appendChunk] throw the "no messages" error, which the event handler lets
    through, and the widget (its transcript included) is left as it was. *)
Theorem C3_chunk_without_start_fails (w : World) (message : Message) :
  chunk_type message <> Some message_start ->
  messages w = [] ->
  appendMessageChunk message w = (Throw NoActiveMessage, w)
  /\ onAppendChunk message w = (Throw NoActiveMessage, w)
  /\ messages (exec (onAppendChunk message) w) = [].
Proof.
  intros Hc Hw.
  assert (Hs : is_chunk message_start message = false).
  { unfold is_chunk. destruct (chunk_type message) as [[]|]; congruence. }
  unfold onAppendChunk, exec. rewrite appendMessageChunk_next_run by exact Hs.
  rewrite Hw. cbn. rewrite Hw. auto.
Qed.

Lemma C3_witness :
  appendMessageChunk (chunk None "Hel" (Some op_append)) initial_world =
  (Throw NoActiveMessage, initial_world).
Proof.
  apply (C3_chunk_without_start_fails initial_world (chunk None "Hel" (Some op_append)));
    [discriminate|reflexivity].
Defined.

(** C4, as the spec states it, fails: a start chunk that carries content
    leaves a last message with that content, not an empty one. *)
Lemma C4_counterexample :
  is_chunk message_start (chunk (Some message_start) "Hi" None) = true
  /\ el_content <$> lastMessage
        (exec (appendMessageChunk (chunk (Some message_start) "Hi" None)) initial_world)
     = Some "Hi"
  /\ el_content <$> lastMessage
        (exec (appendMessageChunk (chunk (Some message_start) "Hi" None)) initial_world)
     <> Some "".
Proof. vm_compute. repeat split; discriminate. Qed.

(** C4, amended.  A start chunk makes [appendChunk] drop a trailing
    placeholder, append one new last message and mark it streaming, without
    finalizing (the input is left disabled); the new message is created from
    the chunk, so its content is the content the chunk carries, whatever the
    chunk's [operation] and whatever the transcript held before. *)
Theorem C4_start_chunk_creates_streaming_entry (w : World) (message : Message) :
  is_chunk message_start message = true ->
  let w' := exec (appendMessageChunk message) w in
  appendMessageChunk message w = (Normal tt, w')
  /\ _disabled (input w') = true
  /\ exists el,
       messages w' = messages (exec removeLoadingMessage w) ++ [el]
       /\ el_streaming el = true
       /\ el_content el = content message
       /\ el_role el = Role_str (role message).
Proof.
  intros Hs w'. subst w'. unfold exec.
  rewrite appendMessageChunk_start_run by exact Hs. rewrite removeLoadingMessage_run.
  cbn. split; [reflexivity|]. split; [apply disabled_to_disabled|].
  eexists. split; [reflexivity|].
  unfold el_streaming, el_content, el_role.
  rewrite getAttribute_setAttribute, !getAttribute_setAttribute_ne by discriminate.
  now rewrite new_message_content, new_message_role.
Qed.

Lemma C4_witness :
  el_content <$> messages
    (exec (appendMessageChunk (chunk (Some message_start) "Hi" None)) awaiting_world)
  = ["hello"; "Hi"].
Proof.
  destruct (C4_start_chunk_creates_streaming_entry awaiting_world
              (chunk (Some message_start) "Hi" None) eq_refl)
    as (_ & _ & el & Hm & _ & Hc & _).
  rewrite Hm, fmap_app. cbn [fmap list_fmap]. rewrite Hc. vm_compute. reflexivity.
Defined.

(** ** Whitespace *)

Lemma trim_as_list s : trim s = string_of_list_ascii (trim_list (list_ascii_of_string s)).
Proof.
  unfold trim, trimEnd, trimStart, trim_list.
  now rewrite list_ascii_of_string_of_list_ascii.
Qed.

Lemma dropWhiteSpace_headed l : headed (dropWhiteSpace l).
Proof.
  induction l as [|c l IH]; cbn; [exact I|].
  destruct (isWhiteSpace c) eqn:E; [exact IH|exact E].
Qed.

Lemma dropWhiteSpace_of_headed l : headed l -> dropWhiteSpace l = l.
Proof. destruct l as [|c l]; cbn; [reflexivity|]. now intros ->. Qed.

Lemma dropWhiteSpace_snoc l c :
  isWhiteSpace c = false -> exists l', dropWhiteSpace (l ++ [c]) = l' ++ [c].
Proof.
  intros Hc. induction l as [|d l IH]; cbn.
  - rewrite Hc. now exists [].
  - destruct (isWhiteSpace d); [exact IH|]. now exists (d :: l).
Qed.

Lemma trim_list_headed l : headed (trim_list l).
Proof.
  unfold trim_list. pose proof (dropWhiteSpace_headed l) as H.
  destruct (dropWhiteSpace l) as [|c y]; [exact I|]. cbn in H. cbn [rev].
  destruct (dropWhiteSpace_snoc (rev y) c H) as [l' ->].
  rewrite rev_app_distr. exact H.
Qed.

Lemma trim_list_idempotent l : trim_list (trim_list l) = trim_list l.
Proof.
  unfold trim_list at 1. rewrite (dropWhiteSpace_of_headed _ (trim_list_headed l)).
  unfold trim_list. rewrite rev_involutive.
  now rewrite (dropWhiteSpace_of_headed _ (dropWhiteSpace_headed _)).
Qed.

Lemma trim_idempotent s : trim (trim s) = trim s.
Proof.
  rewrite (trim_as_list (trim s)), (trim_as_list s).
  now rewrite list_ascii_of_string_of_list_ascii, trim_list_idempotent.
Qed.

Lemma dropWhiteSpace_nil_iff l : dropWhiteSpace l = [] <-> forallb isWhiteSpace l = true.
Proof.
  induction l as [|c l IH]; cbn; [tauto|].
  destruct (isWhiteSpace c); cbn; [exact IH|]. split; discriminate.
Qed.

Lemma trim_list_nil_iff l : trim_list l = [] <-> forallb isWhiteSpace l = true.
Proof.
  rewrite <- dropWhiteSpace_nil_iff. unfold trim_list.
  pose proof (dropWhiteSpace_headed l) as H.
  destruct (dropWhiteSpace l) as [|c y]; [cbn; tauto|]. cbn in H. cbn [rev].
  destruct (dropWhiteSpace_snoc (rev y) c H) as [l' ->].
  rewrite rev_app_distr. cbn. split; discriminate.
Qed.

(** [value.trim().length === 0] says that the value is empty or made of
    whitespace only. *)
Lemma trim_length_0 s :
  (String.length (trim s) =? 0)%nat = whitespace_only s.
Proof.
  unfold whitespace_only. rewrite trim_as_list.
  pose proof (trim_list_nil_iff (list_ascii_of_string s)) as H.
  destruct (trim_list (list_ascii_of_string s)) as [|c l] eqn:E; cbn.
  - symmetry. now apply H.
  - destruct (forallb isWhiteSpace (list_ascii_of_string s)); [|reflexivity].
    now destruct H as [_ H]; specialize (H eq_refl).
Qed.

Lemma truthy_trim s : truthy (trim s) = negb (whitespace_only s).
Proof.
  rewrite <- trim_length_0. unfold truthy. now destruct (trim s).
Qed.

(** ** Submitting text *)

Lemma onInputSent_run detail w :
  onInputSent detail w =
  (Normal tt,
   set_input (disabled_to false (disabled_to true (input w)))
     (set_messages
        (remove_loading (messages w) ++ [new_message detail w; loading_element]) w)).
Proof.
  unfold onInputSent, addLoadingMessage. act. now rewrite <- app_assoc.
Qed.
#[local] Hint Rewrite onInputSent_run : act_run.

Lemma new_message_frame message w w' :
  iconAssistant w' = iconAssistant w -> messageActions w' = messageActions w ->
  new_message message w' = new_message message w.
Proof. intros H1 H2. unfold new_message, messageAttrs_of. now rewrite H1, H2. Qed.

Lemma valueIsEmpty_whitespace w : valueIsEmpty w = whitespace_only (value (input w)).
Proof. apply trim_length_0. Qed.

Lemma sendInput_noop focus w :
  _disabled (input w) = true \/ whitespace_only (value (input w)) = true ->
  sendInput focus w = (Normal tt, w).
Proof.
  intros H. unfold sendInput. act. rewrite valueIsEmpty_whitespace.
  destruct (whitespace_only (value (input w))); [reflexivity|].
  destruct H as [->|H]; [reflexivity|discriminate].
Qed.

Lemma sendInput_run focus w :
  whitespace_only (value (input w)) = false ->
  _disabled (input w) = false ->
  sendInput focus w = (Normal tt, sent focus w).
Proof.
  intros Hv Hd.
  unfold sendInput, dispatchEvent, setInputValue_default, onInput, textarea_focus.
  act. rewrite valueIsEmpty_whitespace, Hv, Hd. act.
  rewrite (new_message_frame _ w) by reflexivity.
  unfold sent, submitted_input, user_message. now destruct focus.
Qed.

Lemma submitted_input_disabled focus i : _disabled (submitted_input focus i) = true.
Proof. unfold submitted_input. destruct focus; cbn; apply disabled_to_disabled. Qed.

(** C5.  A submission with a value that is not empty or whitespace-only, on
    an enabled input, sends the value to the transport, appends a user message
    with that value (after dropping a trailing empty message, if any) and
    then a loading placeholder, and leaves the input disabled.  A submission
    on a disabled input, or of an empty or whitespace-only value, changes
    nothing: no message, no value sent, no event, the input as it was. *)
Theorem C5_user_submission (w : World) (focus : bool) :
  let v := value (input w) in
  let w' := exec (sendInput focus) w in
  (whitespace_only v = false -> _disabled (input w) = false ->
   sendInput focus w = (Normal tt, w')
   /\ messages w' =
      messages (exec removeLoadingMessage w)
      ++ [new_message (user_message v) w; loading_element]
   /\ (falsy (el_content <$> lastMessage w) = false ->
       messages w' = messages w ++ [new_message (user_message v) w; loading_element])
   /\ el_role (new_message (user_message v) w) = "user"
   /\ el_content (new_message (user_message v) w) = v
   /\ is_loading_placeholder loading_element = true
   /\ _disabled (input w') = true
   /\ shiny_values w' = shiny_values w ++ [(input_id (input w), TextValue v)]
   /\ dispatched w' = dispatched w ++ [shiny_chat_input_sent (user_message v)])
  /\ (_disabled (input w) = true \/ whitespace_only v = true ->
      sendInput focus w = (Normal tt, w) /\ w' = w).
Proof.
  intros v w'. subst v w'. split.
  - intros Hv Hd. unfold exec. rewrite (sendInput_run focus w Hv Hd).
    rewrite removeLoadingMessage_run. cbn [snd].
    split; [reflexivity|]. split; [reflexivity|]. split.
    { intros Hl. unfold sent. cbn [messages set_input set_messages].
      unfold remove_loading. unfold lastMessage in Hl. now rewrite Hl. }
    unfold el_role, el_content. rewrite new_message_role, new_message_content.
    split; [reflexivity|]. split; [reflexivity|]. split; [reflexivity|].
    split; [apply submitted_input_disabled|]. split; reflexivity.
  - intros H. unfold exec. now rewrite (sendInput_noop focus w H).
Qed.

Lemma C5_witness :
  el_content <$> messages (exec (sendInput true) (typed_world "hello"))
  = ["hello"; ""]
  /\ sendInput true (typed_world "   ") = (Normal tt, typed_world "   ").
Proof.
  destruct (C5_user_submission (typed_world "hello") true) as [H _].
  destruct (H eq_refl eq_refl) as (_ & Hm & _).
  destruct (C5_user_submission (typed_world "   ") true) as [_ H'].
  split; [rewrite Hm; vm_compute; reflexivity|].
  apply H'. right. reflexivity.
Defined.

(** ** Suggestions *)

(** C6.  When a suggestion is activated, the call made on the input has
    [submit] true if the command or control key is held, whatever the
    element's own flag; false if only the option key is held; the value of
    the element's own flag (the [submit] class or a [data-suggestion-submit]
    attribute that is empty or "true" on the closest suggestion element) if
    no modifier is held; and [focus] is the negation of [submit]. *)
Theorem C6_suggestion_modifiers
    (e : UIEvent) (value : string) (opts : ChatInputSetInputOptions) :
  suggestion_call e = Some (value, opts) ->
  (metaKey e = true \/ ctrlKey e = true -> submit opts = true)
  /\ (metaKey e = false -> ctrlKey e = false -> altKey e = true -> submit opts = false)
  /\ (exists chain el,
        target e = Some chain /\ find matches_suggestion chain = Some el
        /\ (metaKey e = false -> ctrlKey e = false -> altKey e = false ->
            submit opts =
            (has_class "submit" el
             || bool_decide (dataset_suggestionSubmit el = Some "")
             || bool_decide (dataset_suggestionSubmit el = Some "true"))))
  /\ focus opts = negb (submit opts)
  /\ onInputSuggestionEvent e = setInputValue value opts
  /\ onInputSuggestionClick e = setInputValue value opts.
Proof.
  unfold onInputSuggestionClick, onInputSuggestionEvent, suggestion_call, shouldSubmit, getSuggestion.
  destruct (target e) as [chain|]; [|discriminate].
  destruct (find matches_suggestion chain) as [el|] eqn:Hf; [|discriminate].
  destruct (negb _); [discriminate|]. cbn [suggestion suggestion_submit].
  destruct (truthy _) eqn:Ht; [|discriminate]. intros [= <- <-]. cbn [submit focus].
  repeat split.
  - intros [-> | ->]; [reflexivity|]. now rewrite orb_true_r.
  - now intros -> -> ->.
  - exists chain, el. repeat split; [exact Hf|]. now intros -> -> ->.
Qed.

Lemma C6_witness :
  suggestion_call cmd_click = Some ("Tell me more", {| submit := true; focus := false |})
  /\ submit {| submit := true; focus := false |} = true.
Proof.
  split; [reflexivity|].
  apply (C6_suggestion_modifiers cmd_click "Tell me more" {| submit := true; focus := false |});
    [reflexivity|left; reflexivity].
Defined.

(** ** Feedback *)

Lemma dispatch_feedback_run d w :
  dispatchEvent (shiny_chat_message_feedback d) w =
  (Normal tt,
   set_shiny_values
     (shiny_values w ++ [(baseInputId w +:+ "_message_feedback", ActionValue d)])
     (set_dispatched (dispatched w ++ [shiny_chat_message_feedback d]) w)).
Proof. unfold dispatchEvent, onMessageFeedback, forward_action. act. reflexivity. Qed.

(** A click on a feedback button of message [i] that holds [given]. *)
Lemma onFeedbackClick_run which i w this :
  messages w !! i = Some this ->
  onFeedbackClick which i w =
  let toggled :=
    match _feedbackGiven this with
    | Some f => if Feedback_eqb f which then None else Some which
    | None => Some which
    end in
  let w1 := set_messages (alter (set__feedbackGiven toggled) i (messages w)) w in
  match toggled with
  | Some _ =>
      (Normal tt,
       set_shiny_values
         (shiny_values w
          ++ [(baseInputId w +:+ "_message_feedback",
               ActionValue {| messageIndex := getMessageIndex i w;
                              action_content := el_content this;
                              feedback := Some which |})])
         (set_dispatched (dispatched w ++ [feedback_event which i w]) w1))
  | None => (Normal tt, w1)
  end.
Proof.
  intros Hi. unfold onFeedbackClick, set_feedback, feedback_event. act. rewrite Hi. cbn.
  destruct (_feedbackGiven this) as [f|]; [destruct (Feedback_eqb f which)|]; cbn; act;
    try rewrite dispatch_feedback_run; reflexivity.
Qed.

Lemma stored_alter_feedback fb (i : nat) (l : list ChatMessage) :
  stored <$> alter (set__feedbackGiven fb) i l = stored <$> l.
Proof.
  rewrite (list_fmap_alter stored _ (fun x => x)).
  - now apply list_alter_id.
  - apply Forall_forall. now intros [].
Qed.

Lemma count_before_stored (l l' : list ChatMessage) (i : nat) :
  stored <$> l = stored <$> l' ->
  length (filter (fun x => is_chat_message x = true) (take i l)) =
  length (filter (fun x => is_chat_message x = true) (take i l')).
Proof.
  revert l' i. induction l as [|a l IH]; intros [|c l'] i; try discriminate; [reflexivity|].
  intros [= Ht Ha Hr]. destruct i as [|i]; [reflexivity|]. cbn [take].
  assert (Hc : is_chat_message a = is_chat_message c)
    by (unfold is_chat_message; now rewrite Ht).
  rewrite !filter_cons. do 2 case_decide; try congruence; cbn; now rewrite (IH l' i Hr).
Qed.

Lemma feedback_event_stored which i w w' :
  stored <$> messages w = stored <$> messages w' ->
  feedback_event which i w = feedback_event which i w'.
Proof.
  intros H. unfold feedback_event, getMessageIndex.
  rewrite (count_before_stored _ _ i H).
  assert (Hi : stored <$> messages w !! i = stored <$> messages w' !! i)
    by now rewrite <- !list_lookup_fmap, H.
  destruct (messages w !! i) as [a|], (messages w' !! i) as [c|]; try discriminate;
    [|reflexivity].
  injection Hi as Ht Ha. unfold is_chat_message, el_content, getAttribute. cbn.
  now rewrite Ht, Ha.
Qed.

(** C7.  On a message with no feedback given, a click on thumbs-up sets its
    feedback to positive and dispatches exactly one feedback event; a second
    click clears the feedback and dispatches nothing; a click on thumbs-down
    after that sets the feedback to negative and dispatches exactly one
    feedback event.  No feedback click changes what the transcript holds
    (the messages, their content and attributes) or the input. *)
Theorem C7_feedback_toggle (w : World) (i : nat) (this : ChatMessage) :
  messages w !! i = Some this ->
  _feedbackGiven this = None ->
  let w1 := exec (onThumbsUpClick i) w in
  let w2 := exec (onThumbsUpClick i) w1 in
  let w3 := exec (onThumbsDownClick i) w2 in
  (_feedbackGiven <$> messages w1 !! i = Some (Some positive)
   /\ dispatched w1 = dispatched w ++ [feedback_event positive i w])
  /\ (_feedbackGiven <$> messages w2 !! i = Some None
      /\ dispatched w2 = dispatched w1 /\ shiny_values w2 = shiny_values w1)
  /\ (_feedbackGiven <$> messages w3 !! i = Some (Some negative)
      /\ dispatched w3 = dispatched w2 ++ [feedback_event negative i w])
  /\ forall which j w0,
       stored <$> messages (exec (onFeedbackClick which j) w0) = stored <$> messages w0
       /\ input (exec (onFeedbackClick which j) w0) = input w0.
Proof.
  intros Hi Hn w1 w2 w3.
  assert (E1 : w1 =
    set_shiny_values
      (shiny_values w
       ++ [(baseInputId w +:+ "_message_feedback",
            ActionValue {| messageIndex := getMessageIndex i w;
                           action_content := el_content this;
                           feedback := Some positive |})])
      (set_dispatched (dispatched w ++ [feedback_event positive i w])
         (set_messages (alter (set__feedbackGiven (Some positive)) i (messages w)) w))).
  { subst w1. unfold exec, onThumbsUpClick. rewrite (onFeedbackClick_run _ _ _ _ Hi), Hn.
    reflexivity. }
  assert (H1 : messages w1 !! i = Some (set__feedbackGiven (Some positive) this)).
  { rewrite E1. cbn. now rewrite list_lookup_alter_eq, Hi. }
  assert (E2 : w2 =
    set_messages (alter (set__feedbackGiven None) i (messages w1)) w1).
  { subst w2. unfold exec, onThumbsUpClick. rewrite (onFeedbackClick_run _ _ _ _ H1).
    reflexivity. }
  assert (H2 : messages w2 !! i =
               Some (set__feedbackGiven None (set__feedbackGiven (Some positive) this))).
  { rewrite E2. cbn. now rewrite list_lookup_alter_eq, H1. }
  assert (E3 : dispatched w3 = dispatched w2 ++ [feedback_event negative i w2]
               /\ messages w3 = alter (set__feedbackGiven (Some negative)) i (messages w2)).
  { subst w3. unfold exec, onThumbsDownClick. rewrite (onFeedbackClick_run _ _ _ _ H2).
    split; reflexivity. }
  assert (Hs : forall which j w0,
             stored <$> messages (exec (onFeedbackClick which j) w0) = stored <$> messages w0
             /\ input (exec (onFeedbackClick which j) w0) = input w0).
  { intros which j w0. unfold exec.
    destruct (messages w0 !! j) as [el|] eqn:Hj.
    - rewrite (onFeedbackClick_run _ _ _ _ Hj). cbn zeta.
      destruct (match _feedbackGiven el with Some f => _ | None => _ end); cbn;
        now rewrite stored_alter_feedback.
    - unfold onFeedbackClick. act. now rewrite Hj. }
  repeat split.
  - now rewrite H1.
  - now rewrite E1.
  - now rewrite H2.
  - now rewrite E2.
  - now rewrite E2.
  - destruct E3 as [_ ->]. now rewrite list_lookup_alter_eq, H2.
  - destruct E3 as [-> _]. f_equal. f_equal. apply feedback_event_stored.
    subst w2 w1. unfold onThumbsUpClick. now rewrite !(proj1 (Hs _ _ _)).
  - apply Hs.
  - apply Hs.
Qed.

Lemma C7_witness :
  _feedbackGiven <$> messages (exec (onThumbsUpClick 1) answered_world) !! 1%nat
  = Some (Some positive)
  /\ length (dispatched (exec (onThumbsUpClick 1) answered_world)) = 1%nat.
Proof.
  assert (H : messages answered_world !! 1%nat
              = Some (new_message (chunk None "Hi there" None) initial_world))
    by (vm_compute; reflexivity).
  destruct (C7_feedback_toggle answered_world 1 _ H eq_refl) as ((H1 & H2) & _).
  split; [exact H1|]. rewrite H2. reflexivity.
Defined.

(** ** Stopping a transcription *)

Create Rewrite HintDb capture.

Lemma capture_state_fields i i' :
  capture_state i = capture_state i' ->
  _speechRecognition i = _speechRecognition i'
  /\ _mediaRecorder i = _mediaRecorder i'
  /\ _isRecording i = _isRecording i'
  /\ _audioChunks i = _audioChunks i'
  /\ input_id i = input_id i'.
Proof. unfold capture_state. intros [= -> _ -> _ -> -> _ _ -> _ _]. auto. Qed.

Lemma capture_state_disabled_to v i : capture_state (disabled_to v i) = capture_state i.
Proof. unfold disabled_to. now destruct (Bool.eqb _ _). Qed.

Lemma capture_state_set_value v i : capture_state (set_value v i) = capture_state i.
Proof. reflexivity. Qed.

Lemma capture_state_set_button_disabled v i :
  capture_state (set_button_disabled v i) = capture_state i.
Proof. reflexivity. Qed.

Lemma capture_state_set_focused v i : capture_state (set_focused v i) = capture_state i.
Proof. reflexivity. Qed.

Lemma capture_state_submitted focus i :
  capture_state (submitted_input focus i) = capture_state i.
Proof.
  unfold submitted_input. destruct focus; cbn zeta;
    repeat first [rewrite capture_state_set_focused | rewrite capture_state_disabled_to
                 | rewrite capture_state_set_button_disabled
                 | rewrite capture_state_set_value]; reflexivity.
Qed.
#[local] Hint Rewrite capture_state_disabled_to capture_state_set_value
  capture_state_set_button_disabled capture_state_set_focused
  capture_state_submitted : capture.
#[local] Arguments capture_state : simpl never.
#[local] Arguments submitted_input : simpl never.

Lemma setInputValue_default_run v w :
  setInputValue_default v w = (Normal tt, set_input (typed v (input w)) w).
Proof. unfold setInputValue_default, onInput, typed. act. reflexivity. Qed.

#[local] Arguments set_input_value : simpl never.
#[local] Arguments sent : simpl never.

Lemma setInputValue_run v opts w :
  setInputValue v opts w = (Normal tt, set_input_value v opts w).
Proof.
  unfold setInputValue, set_input_value, textarea_focus, typed, onInput.
  act.
  destruct opts as [[] f]; cbn [submit focus]; act.
  - destruct (whitespace_only v || _disabled (input w)) eqn:E.
    + rewrite sendInput_noop.
      2:{ cbn [input set_input value typed set_value set_button_disabled _disabled].
          apply orb_true_iff in E. tauto. }
      act. destruct (truthy (value (input w))); act;
        [rewrite setInputValue_default_run|]; now destruct f.
    + apply orb_false_iff in E. destruct E as [E1 E2].
      rewrite sendInput_run by (cbn; assumption).
      act. destruct (truthy (value (input w))); act;
        [rewrite setInputValue_default_run|]; now destruct f.
  - now destruct f.
Qed.

Lemma capture_state_typed v i : capture_state (typed v i) = capture_state i.
Proof. reflexivity. Qed.
#[local] Hint Rewrite capture_state_typed : capture.
#[local] Arguments typed : simpl never.

(** [setInputValue(value, { submit: true, focus })] for a value that is not
    empty or whitespace-only. *)
Lemma set_input_value_submit v f w :
  whitespace_only v = false ->
  let w' := set_input_value v {| submit := true; focus := f |} w in
  let submitted := negb (_disabled (input w)) in
  shiny_values w' =
    shiny_values w ++ (if submitted then [(input_id (input w), TextValue v)] else [])
  /\ dispatched w' =
     dispatched w ++ (if submitted then [shiny_chat_input_sent (user_message v)] else [])
  /\ messages w' =
     (if submitted
      then remove_loading (messages w) ++ [new_message (user_message v) w; loading_element]
      else messages w)
  /\ text_frame w w'.
Proof.
  intros Hv w' submitted. subst w' submitted. unfold set_input_value, text_frame.
  cbn [submit focus]. rewrite Hv. cbn [orb].
  destruct (_disabled (input w)) eqn:Hd; cbn [negb].
  - rewrite !app_nil_r.
    destruct (truthy (value (input w))), f; cbn; autorewrite with capture;
      repeat split; reflexivity.
  - unfold sent. cbn [input set_input value typed set_value set_button_disabled].
    rewrite (new_message_frame _ w) by reflexivity.
    destruct (truthy (value (input w))), f; cbn; autorewrite with capture;
      repeat split; reflexivity.
Qed.

Lemma stopRecording_transcription_run cancel r w :
  _speechRecognition (input w) = Some r ->
  stopRecording cancel w = (Normal tt, stop_transcription cancel r w).
Proof.
  intros Hr. unfold stopRecording, stop_transcription, recognition_stop.
  act. rewrite Hr. act. rewrite truthy_trim.
  destruct (negb cancel && negb (whitespace_only (_transcribedText (input w)))); act;
    [rewrite setInputValue_run|]; reflexivity.
Qed.

Lemma whitespace_only_trim s : whitespace_only (trim s) = whitespace_only s.
Proof. now rewrite <- !trim_length_0, trim_idempotent. Qed.

(** C8.  An explicit stop (not a cancel) of a transcription hands the
    trimmed text on display, when it is not empty, to [setInputValue] with
    [submit], the path of typed text: on an enabled input (the state in which
    the microphone button can be clicked) exactly that string is sent as the
    text value and as a user turn; on a disabled input [sendInput] drops it,
    as it drops typed text.  When the text is empty nothing is submitted.  In
    every case no audio value, audio event or file read is produced, and the
    session is gone: the recogniser is stopped, dropped and will not
    restart, the recording flag and the text are reset. *)
Theorem C8_transcription_stop (w : World) (r : nat) :
  _speechRecognition (input w) = Some r ->
  let displayed := _transcribedText (input w) in
  let submitted := negb (whitespace_only displayed) && negb (_disabled (input w)) in
  let w' := exec (stopRecording false) w in
  (_disabled (input w) = false -> _isRecording (input w) = true ->
   onMicClick w = stopRecording false w)
  /\ stopRecording false w = (Normal tt, w')
  /\ shiny_values w' =
     shiny_values w
     ++ (if submitted then [(input_id (input w), TextValue (trim displayed))] else [])
  /\ dispatched w' =
     dispatched w
     ++ (if submitted then [shiny_chat_input_sent (user_message (trim displayed))] else [])
  /\ messages w' =
     (if submitted
      then messages (exec removeLoadingMessage w)
           ++ [new_message (user_message (trim displayed)) w; loading_element]
      else messages w)
  /\ readers (platform w') = readers (platform w)
  /\ recorders (platform w') = recorders (platform w)
  /\ _speechRecognition (input w') = None
  /\ _isRecording (input w') = false
  /\ _transcribedText (input w') = ""
  /\ recognitions (platform w') =
     alter (set_listening false) r (alter (set_onend false) r (recognitions (platform w))).
Proof.
  intros Hr displayed submitted w'. subst displayed submitted w'. split.
  { intros Hd Hrec. unfold onMicClick. act. rewrite Hd. unfold toggleRecording. act.
    now rewrite Hrec. }
  unfold exec. rewrite removeLoadingMessage_run, (stopRecording_transcription_run _ _ _ Hr).
  cbn [snd messages set_messages]. split; [reflexivity|].
  unfold stop_transcription. cbn [negb andb].
  destruct (whitespace_only (_transcribedText (input w))) eqn:Hws; cbn [negb andb].
  { rewrite !app_nil_r. cbn. repeat split; reflexivity. }
  match goal with
  | |- context [set_input_value ?v ?o ?w1] =>
      destruct (set_input_value_submit v true w1) as (Hs & Hd & Hm & Hp & Hc & _);
        [now rewrite whitespace_only_trim|];
      cbn [input set_input _disabled set__speechRecognition shiny_values dispatched
           messages set_platform input_id] in Hs, Hd, Hm;
      rewrite (new_message_frame _ w) in Hm by reflexivity
  end.
  apply capture_state_fields in Hc. destruct Hc as (Hsr & _).
  cbn [shiny_values dispatched messages set_input platform input _speechRecognition
       _isRecording _transcribedText set__transcribedText set__isRecording].
  rewrite Hs, Hd, Hm, Hp, Hsr. repeat split; reflexivity.
Qed.

Lemma C8_witness :
  _transcribedText (input dictating_world) = "hello world"
  /\ shiny_values (exec (stopRecording false) dictating_world)
     = [("chat_user_input", TextValue "hello world")]
  /\ dispatched (exec (stopRecording false) dictating_world)
     = [shiny_chat_input_sent (user_message "hello world")]
  /\ readers (platform (exec (stopRecording false) dictating_world)) = [].
Proof.
  split; [vm_compute; reflexivity|].
  destruct (C8_transcription_stop dictating_world 0 eq_refl)
    as (_ & _ & Hs & Hd & _ & Hr & _).
  rewrite Hs, Hd, Hr. vm_compute. repeat split; reflexivity.
Defined.

(** ** Teardown *)












(** *** The recorders of a reachable widget *)











(** A microphone grant that arrives after teardown still starts a recording,
    on the detached input; nothing is sent by it. *)
Lemma late_grant_starts_recording :
  let w := run_platform [UserMediaSettled true] (exec disconnectedCallback asking_world) in
  pending_user_media (platform asking_world) = 1%nat
  /\ disconnectedCallback asking_world = (Normal tt, asking_world)
  /\ _isRecording (input w) = true
  /\ recorders (platform w) = [first_recorder]
  /\ outputs w = outputs asking_world.
Proof. vm_compute. repeat split; reflexivity. Qed.




(** ** Stopping a raw recording *)

Lemma stopRecording_raw_run w m o :
  _speechRecognition (input w) = None ->
  _mediaRecorder (input w) = Some m ->
  _isRecording (input w) = true ->
  recorders (platform w) !! m = Some o ->
  recording o = true ->
  stopRecording false w = (Normal tt, stop_raw m w).
Proof.
  intros Hr Hm Hi Ho Hrec.
  unfold stopRecording, recorder_stop, stop_raw. act. rewrite Hr, Hm, Hi. cbn [negb].
  destruct (_recordingTimer (input w)) as [t|]; act;
    rewrite list_lookup_alter_eq, Ho; act; rewrite Hrec; reflexivity.
Qed.

Lemma buffer_data_nil w : buffer_data [] w = w.
Proof.
  unfold buffer_data. rewrite filter_nil, app_nil_r. now destruct w as [? [] ? ? ? ? ? ?].
Qed.

Lemma buffer_data_cons data datas w :
  buffer_data (data :: datas) w =
  buffer_data datas (if 0 <? blob_size data
                     then set_input (set__audioChunks (_audioChunks (input w) ++ [data])
                                       (input w)) w
                     else w).
Proof.
  unfold buffer_data. rewrite filter_cons.
  destruct (Z.ltb_spec 0 (blob_size data)); case_decide; try lia; [|reflexivity].
  cbn. now rewrite <- app_assoc.
Qed.

Lemma run_recorder_data m o datas w :
  recorders (platform w) !! m = Some o ->
  ondataavailable o = true ->
  run_platform (RecorderData m <$> datas) w = buffer_data datas w.
Proof.
  revert w. induction datas as [|data datas IH]; intros w Ho Hd.
  - now rewrite buffer_data_nil.
  - rewrite buffer_data_cons. cbn [fmap list_fmap run_platform fold_left].
    fold (run_platform (RecorderData m <$> datas)).
    replace (exec (platform_event (RecorderData m data)) w)
      with (if 0 <? blob_size data
            then set_input (set__audioChunks (_audioChunks (input w) ++ [data]) (input w)) w
            else w).
    + apply IH; [|exact Hd]. now destruct (0 <? blob_size data).
    + unfold exec, platform_event, on_dataavailable. act. rewrite Ho. act. rewrite Hd. act.
      now destruct (0 <? blob_size data).
Qed.

Lemma recorder_stopped_run w m o d :
  _mediaRecorder (input w) = Some m ->
  recorders (platform w) !! m = Some o ->
  onstop o = Some (ReleaseAndSend d) ->
  let w' := exec (platform_event (RecorderStopped m)) w in
  outputs w' = outputs w
  /\ _audioChunks (input w') = []
  /\ readers (platform w') =
     readers (platform w)
     ++ match _audioChunks (input w) with
        | [] => []
        | chunks => [audio_reader chunks o d]
        end.
Proof.
  intros Hm Ho Hs w'. subst w'.
  unfold exec, platform_event, on_recorder_stop, release_tracks, sendAudioData. act.
  rewrite Ho. act. rewrite Hs. act. rewrite Hm. act.
  destruct (_audioChunks (input w)) as [|c chunks] eqn:Hc; act.
  - rewrite app_nil_r. repeat split; reflexivity.
  - rewrite list_lookup_alter_eq, Ho. repeat split; reflexivity.
Qed.

(** [reader.onloadend]: the hand-off of the audio. *)
Lemma reader_loaded_run w k rd result :
  readers (platform w) !! k = Some rd ->
  reader_done rd = false ->
  let w' := exec (platform_event (ReaderLoadEnd k result)) w in
  let audioData :=
    {| audio := split_comma_1 result; audio_format := reader_format rd;
       audio_duration_ms := reader_duration_ms rd;
       audio_size := blob_size (reader_blob rd) |} in
  shiny_values w' =
    shiny_values w ++ [(input_id (input w) +:+ "_audio", AudioValue audioData)]
  /\ dispatched w' = dispatched w ++ [shiny_chat_audio_input audioData]
  /\ messages w' = messages w.
Proof.
  intros Hk Hd w' audioData. subst w' audioData.
  unfold exec, platform_event, audio_loaded, dispatchEvent. act. rewrite Hk, Hd. act.
  repeat split; reflexivity.
Qed.

(** C10.  When a raw recording is stopped (not cancelled), nothing is sent
    by the stop itself, and when the recorder's [stop] event arrives the
    audio is handed over only if a chunk has been buffered: with an empty
    list of chunks no file read is started, no audio value is sent and no
    audio event is dispatched; with chunks, one read of their concatenation
    is started, and its completion sends the payload, encoding, duration and
    size.  Only blobs of non-zero size are ever buffered, so the hand-off
    requires at least one non-empty chunk. *)
Theorem C10_raw_stop_handoff (w : World) (m : nat) (o : MediaRecorder) (datas : list Blob) :
  _speechRecognition (input w) = None ->
  _mediaRecorder (input w) = Some m ->
  _isRecording (input w) = true ->
  recorders (platform w) !! m = Some o ->
  recording o = true ->
  ondataavailable o = true ->
  let duration_ms := now (platform w) - _recordingStartTime (input w) in
  let w1 := exec (stopRecording false) w in
  let w2 := run_platform (RecorderData m <$> datas) w1 in
  let w3 := exec (platform_event (RecorderStopped m)) w2 in
  let buffered := _audioChunks (input w) ++ filter (fun b => 0 < blob_size b) datas in
  stopRecording false w = (Normal tt, w1)
  /\ _audioChunks (input w2) = buffered
  /\ outputs w3 = outputs w
  /\ (buffered = [] -> readers (platform w3) = readers (platform w))
  /\ (buffered <> [] ->
      readers (platform w3) = readers (platform w) ++ [audio_reader buffered o duration_ms]
      /\ forall result,
           let w4 := exec (platform_event (ReaderLoadEnd (length (readers (platform w))) result)) w3 in
           let audioData :=
             {| audio := split_comma_1 result;
                audio_format := or_else (mimeType o) "audio/webm";
                audio_duration_ms := duration_ms;
                audio_size := blob_size (Blob_of buffered (or_else (mimeType o) "audio/webm")) |} in
           shiny_values w4 =
             shiny_values w ++ [(input_id (input w) +:+ "_audio", AudioValue audioData)]
           /\ dispatched w4 = dispatched w ++ [shiny_chat_audio_input audioData])
  /\ (readers (platform w3) <> readers (platform w) ->
      Exists (fun b => 0 < blob_size b) datas \/ _audioChunks (input w) <> []).
Proof.
  intros Hr Hm Hi Ho Hrec Hda duration_ms w1 w2 w3 buffered.
  assert (E1 : stopRecording false w = (Normal tt, stop_raw m w))
    by exact (stopRecording_raw_run w m o Hr Hm Hi Ho Hrec).
  assert (Ew1 : w1 = stop_raw m w) by (subst w1; unfold exec; now rewrite E1).
  set (o1 := set_recording false (set_onstop (Some (ReleaseAndSend duration_ms)) o)).
  assert (Ho1 : recorders (platform w1) !! m = Some o1
                /\ _mediaRecorder (input w1) = Some m
                /\ _audioChunks (input w1) = _audioChunks (input w)
                /\ outputs w1 = outputs w
                /\ readers (platform w1) = readers (platform w)
                /\ input_id (input w1) = input_id (input w)).
  { rewrite Ew1. unfold stop_raw.
    destruct (_recordingTimer (input w)); cbn;
      rewrite !list_lookup_alter_eq, Ho; repeat split; auto. }
  destruct Ho1 as (Ho1 & Hm1 & Hc1 & Hout1 & Hrd1 & Hid1).
  assert (Ew2 : w2 = buffer_data datas w1)
    by (subst w2; now apply (run_recorder_data m o1)).
  assert (Hc2 : _audioChunks (input w2) = buffered)
    by (rewrite Ew2; cbn; now rewrite Hc1).
  destruct (recorder_stopped_run w2 m o1 duration_ms) as (Hout3 & _ & Hrd3);
    [now rewrite Ew2|now rewrite Ew2|reflexivity|].
  fold w3 in Hout3, Hrd3. rewrite Hc2 in Hrd3.
  assert (Hout2 : outputs w2 = outputs w) by (rewrite Ew2; exact Hout1).
  assert (Hrd2 : readers (platform w2) = readers (platform w)) by (rewrite Ew2; exact Hrd1).
  rewrite Hrd2 in Hrd3.
  split; [now rewrite Ew1|]. split; [exact Hc2|]. split; [congruence|].
  split; [|split].
  - intros Hb. rewrite Hrd3, Hb. apply app_nil_r.
  - intros Hb.
    assert (Hrd3' : readers (platform w3)
                    = readers (platform w) ++ [audio_reader buffered o duration_ms]).
    { rewrite Hrd3. now destruct buffered. }
    split; [exact Hrd3'|]. intros result w4 audioData.
    destruct (reader_loaded_run w3 (length (readers (platform w)))
                (audio_reader buffered o duration_ms) result) as (Hs4 & Hd4 & _).
    { rewrite Hrd3'. now rewrite lookup_app_r, Nat.sub_diag by lia. }
    { reflexivity. }
    fold w4 in Hs4, Hd4. unfold outputs in Hout3, Hout2.
    injection Hout3 as Hs3 Hd3 _. injection Hout2 as Hs2 Hd2 _.
    assert (Hid3 : input_id (input w3) = input_id (input w)).
    { subst w3. unfold exec, platform_event, on_recorder_stop, release_tracks, sendAudioData.
      act. rewrite Ew2. cbn. rewrite Ho1. act. rewrite Hm1.
      destruct (_audioChunks (input w1) ++ _)%list; act; exact Hid1. }
    rewrite Hs4, Hd4, Hs3, Hd3, Hs2, Hd2, Hid3. split; reflexivity.
  - intros Hne. destruct (_audioChunks (input w)) as [|c cs] eqn:Hcw; [|right; discriminate].
    left. subst buffered. cbn [app] in Hrd3.
    destruct (filter _ datas) as [|b bs] eqn:Hf.
    + exfalso. apply Hne. rewrite Hrd3. apply app_nil_r.
    + apply Exists_exists. exists b.
      assert (Hin : b ∈ filter (fun b => 0 < blob_size b) datas) by (rewrite Hf; left).
      apply list_elem_of_filter in Hin. destruct Hin as [Hb Hin].
      split; [exact Hin|exact Hb].
Qed.

Lemma C10_witness :
  recorders (platform recording_world) !! 0%nat = Some first_recorder
  /\ readers (platform
       (exec (platform_event (RecorderStopped 0))
          (run_platform (RecorderData 0 <$> [silence])
             (exec (stopRecording false) recording_world)))) = []
  /\ length (readers (platform
       (exec (platform_event (RecorderStopped 0))
          (run_platform (RecorderData 0 <$> [silence; some_bytes])
             (exec (stopRecording false) recording_world))))) = 1%nat.
Proof.
  split; [reflexivity|].
  destruct (C10_raw_stop_handoff recording_world 0 first_recorder [silence]
              eq_refl eq_refl eq_refl eq_refl eq_refl eq_refl) as (_ & _ & _ & Hnil & _).
  destruct (C10_raw_stop_handoff recording_world 0 first_recorder [silence; some_bytes]
              eq_refl eq_refl eq_refl eq_refl eq_refl eq_refl) as (_ & _ & _ & _ & Hsend & _).
  split; [apply Hnil; reflexivity|].
  destruct Hsend as [-> _]; [discriminate|reflexivity].
Defined.
